(** * add_gsi: adding two Global Secondary Indexes to a DynamoDB table

    A shallow embedding of [src/add_gsi.py].  The module is sequential
    Python talking to four outside parties: the DynamoDB control API
    ([describe_table], [update_table]), the Lambda context (remaining
    time), the clock ([time.sleep]) and the CloudFormation callback URL
    ([urllib.request.urlopen]).  Every call to one of them, and every call
    to the logger, is recorded in a trace; the answers of the outside
    world are given by an environment, indexed by the number of the call.

    Python exceptions are values of [exn]; a computation either returns,
    raises, or exhausts the fuel that bounds the two polling loops. *)

From Stdlib Require Import ZArith String List Bool Lia.
From stdpp Require Import base gmap strings list.

Set Warnings "-register-all".
Local Open Scope string_scope.
Local Open Scope list_scope.
Local Open Scope Z_scope.

(** ** Python values *)

(** The values found in a boto3 response: [None], booleans, integers,
    strings, lists and dictionaries with string keys (in insertion order,
    looked up by first match). *)
Inductive jvalue : Type :=
| JNone
| JBool (b : bool)
| JInt (n : Z)
| JStr (s : string)
| JList (l : list jvalue)
| JDict (d : list (string * jvalue)).

(** An exception: its class name and the result of [str(e)]. *)
Record exn : Type := Exn { exn_class : string; exn_str : string }.

(** [needle in hay] on Python strings. *)
Fixpoint str_contains (needle hay : string) : bool :=
  String.prefix needle hay ||
  match hay with
  | EmptyString => false
  | String _ rest => str_contains needle rest
  end.

Fixpoint assoc_lookup (k : string) (d : list (string * jvalue)) : option jvalue :=
  match d with
  | [] => None
  | (k', v) :: d' => if String.eqb k k' then Some v else assoc_lookup k d'
  end.

(** [str(KeyError(k))] is the quoted key. *)
Definition KeyError (k : string) : exn := Exn "KeyError" ("'" +:+ k +:+ "'").
Definition TypeError (what : string) : exn := Exn "TypeError" what.

(** [v[k]] for a string key [k]. *)
Definition py_getitem (v : jvalue) (k : string) : exn + jvalue :=
  match v with
  | JDict d =>
      match assoc_lookup k d with
      | Some x => inr x
      | None => inl (KeyError k)
      end
  | _ => inl (TypeError "object is not subscriptable by a string")
  end.

Definition is_str (s : string) (v : jvalue) : bool :=
  match v with
  | JStr s' => String.eqb s' s
  | _ => false
  end.

(** [k in v] for a string [k]. *)
Definition py_contains (k : string) (v : jvalue) : exn + bool :=
  match v with
  | JDict d => inr (match assoc_lookup k d with Some _ => true | None => false end)
  | JList l => inr (existsb (is_str k) l)
  | JStr s => inr (str_contains k s)
  | _ => inl (TypeError "argument is not iterable")
  end.

Fixpoint chars_of (s : string) : list jvalue :=
  match s with
  | EmptyString => []
  | String c rest => JStr (String c EmptyString) :: chars_of rest
  end.

(** [for n in v]: the elements a Python iteration over [v] yields. *)
Definition py_iter (v : jvalue) : exn + list jvalue :=
  match v with
  | JList l => inr l
  | JDict d => inr (map (fun kv => JStr (fst kv)) d)
  | JStr s => inr (chars_of s)
  | _ => inl (TypeError "object is not iterable")
  end.

(** ** Requests sent to the outside world *)

(** One index definition, as written out in [create_gsi_1] and
    [create_gsi_2]. *)
Record IndexDef : Type := {
  IndexName : option string;
  KeySchema : list (string * string);
  ProjectionType : string;
  NonKeyAttributes : list string;
  ReadCapacityUnits : Z;
  WriteCapacityUnits : Z
}.

Record UpdateTableReq : Type := {
  AttributeDefinitions : list (string * string);
  TableName : option string;
  Create : IndexDef
}.

Inductive header_value : Type :=
| HStr (s : string)
| HInt (n : Z).

(** The arguments of [urllib.request.Request(...)]. *)
Record Request : Type := {
  req_url : string;
  req_method : string;
  req_data : string;
  req_headers : list (string * header_value)
}.

(** The Lambda context object. *)
Record Context : Type := { log_stream_name : string }.

(** ** Log records *)

Inductive LogLevel : Type := DEBUG | INFO | ERROR.

(** One constructor per logging call of the module, with the values it
    interpolates. *)
Inductive LogMsg : Type :=
| MsgTableStatusNotReturned
| MsgValue (v : jvalue)
| MsgNoGSIs
| MsgFailedToGetGSIs
| MsgTableNotActive (table : option string) (exp_wait : Z)
| MsgFlag (b : bool)
| MsgTableActive (table : option string)
| MsgGSIsNotActive (table : option string) (exp_wait : Z)
| MsgGSIsActive (table : option string)
| MsgRetrying (fn_name : string) (wait_seconds : Z)
| MsgRetriesRemaining (n : Z)
| MsgRetryCause (e : exn)
| MsgAlreadyCreated (fn_name : string)
| MsgFailedAfter (fn_name : string) (num_retries : Z)
| MsgAddingGSI (i : nat)
| MsgGSIAdded (i : nat)
| MsgResponse (body : string)
| MsgResponseRequest (r : Request)
| MsgSending
| MsgSent
| MsgSendFailed (e : exn)
| MsgEvent (event : gmap string string)
| MsgContext (c : Context)
| MsgCreatingGSI (i : nat) (table : option string)
| MsgSuccessSendFailed.

(** ** Traces, worlds and the environment *)

Inductive Event : Type :=
| EvLog (lvl : LogLevel) (msg : LogMsg)
| EvSleep (secs : Z)
| EvDescribeTable (table : option string)
| EvRemainingTime
| EvUpdateTable (req : UpdateTableReq)
| EvUrlopen (req : Request).

(** The state of a run is its trace so far, oldest event first. *)
Definition World : Type := list Event.

Definition is_describe (e : Event) : bool :=
  match e with EvDescribeTable _ => true | _ => false end.
Definition is_update (e : Event) : bool :=
  match e with EvUpdateTable _ => true | _ => false end.
Definition is_remaining (e : Event) : bool :=
  match e with EvRemainingTime => true | _ => false end.
Definition is_urlopen (e : Event) : bool :=
  match e with EvUrlopen _ => true | _ => false end.

(** How many events of a kind a trace holds. *)
Fixpoint count (p : Event -> bool) (t : list Event) : nat :=
  match t with
  | [] => O
  | e :: t' => ((if p e then 1 else 0) + count p t')%nat
  end.

Definition n_describe (w : World) : nat := count is_describe w.
Definition n_update (w : World) : nat := count is_update w.
Definition n_remaining (w : World) : nat := count is_remaining w.
Definition n_urlopen (w : World) : nat := count is_urlopen w.

(** What the outside world answers.  The first three fields are the
    environment variables read when the module is loaded
    ([os.environ.get], [None] when unset).  The next four are indexed by
    the number of earlier calls of the same kind in the trace.  The last three are
    library functions the module calls and whose code is not part of it:
    [pow_floor b r] is [math.floor(b ** (r / b))] on IEEE doubles for
    [b <> 0], [json_dumps] is [json.dumps] on a dictionary of strings, and
    [url_has_type] tells whether [urllib.request.Request] accepts the URL
    (it raises [ValueError] for a URL without a scheme). *)
Record Env : Type := {
  TABLE_NAME : option string;
  GSI_1 : option string;
  GSI_2 : option string;
  describe_table : nat -> option string -> exn + jvalue;
  update_table : nat -> UpdateTableReq -> option exn;
  get_remaining_time_in_millis : nat -> Z;
  urlopen : nat -> Request -> option exn;
  pow_floor : Z -> Z -> Z;
  json_dumps : list (string * string) -> string;
  url_has_type : string -> bool
}.

(** ** The monad of the embedding *)

Inductive outcome (A : Type) : Type :=
| Ok (a : A)
| Raise (e : exn)
| OutOfFuel.
Arguments Ok {A} a.
Arguments Raise {A} e.
Arguments OutOfFuel {A}.

Definition M (A : Type) : Type := World -> outcome A * World.

Definition ret {A} (a : A) : M A := fun w => (Ok a, w).
Definition raise {A} (e : exn) : M A := fun w => (Raise e, w).
Definition out_of_fuel {A} : M A := fun w => (OutOfFuel, w).

Definition bind {A B} (m : M A) (k : A -> M B) : M B :=
  fun w =>
    match m w with
    | (Ok a, w') => k a w'
    | (Raise e, w') => (Raise e, w')
    | (OutOfFuel, w') => (OutOfFuel, w')
    end.

(** [try: m  except Exception as e: h e] (also the bare [except:], every
    exception of the model being an [Exception]). *)
Definition try_except {A} (m : M A) (h : exn -> M A) : M A :=
  fun w =>
    match m w with
    | (Raise e, w') => h e w'
    | r => r
    end.

(** Lifting of a pure computation that may raise. *)
Definition lift {A} (r : exn + A) : M A :=
  match r with
  | inr a => ret a
  | inl e => raise e
  end.

Declare Scope py_scope.
Delimit Scope py_scope with py.
Notation "x <- c1 ;; c2" := (bind c1 (fun x => c2))
  (at level 100, c1 at next level, right associativity) : py_scope.
Notation "c1 ;; c2" := (bind c1 (fun _ => c2))
  (at level 100, right associativity) : py_scope.
Local Open Scope py_scope.

Definition emit (e : Event) : M unit := fun w => (Ok tt, w ++ [e]).

Definition log (lvl : LogLevel) (msg : LogMsg) : M unit := emit (EvLog lvl msg).

(** [time.sleep(secs)]: a negative length raises [ValueError]. *)
Definition sleep (secs : Z) : M unit :=
  if secs <? 0 then raise (Exn "ValueError" "sleep length must be non-negative")
  else emit (EvSleep secs).

(** ** The module *)

Section AddGsi.

Variable env : Env.

(** [client.describe_table(TableName=tablename)] *)
Definition client_describe_table (tablename : option string) : M jvalue :=
  fun w =>
    match describe_table env (n_describe w) tablename with
    | inr response => (Ok response, w ++ [EvDescribeTable tablename])
    | inl e => (Raise e, w ++ [EvDescribeTable tablename])
    end.

(** [client.update_table(...)] *)
Definition client_update_table (req : UpdateTableReq) : M unit :=
  fun w =>
    match update_table env (n_update w) req with
    | None => (Ok tt, w ++ [EvUpdateTable req])
    | Some e => (Raise e, w ++ [EvUpdateTable req])
    end.

(** [context.get_remaining_time_in_millis()] *)
Definition context_get_remaining_time_in_millis (context : Context) : M Z :=
  fun w =>
    (Ok (get_remaining_time_in_millis env (n_remaining w)), w ++ [EvRemainingTime]).

(** [urllib.request.urlopen(request)] *)
Definition urllib_request_urlopen (request : Request) : M unit :=
  fun w =>
    match urlopen env (n_urlopen w) request with
    | None => (Ok tt, w ++ [EvUrlopen request])
    | Some e => (Raise e, w ++ [EvUrlopen request])
    end.

(** [urllib.request.Request(url=..., method=..., data=..., headers=...)] *)
Definition urllib_request_Request (url method data : string)
    (headers : list (string * header_value)) : M Request :=
  if url_has_type env url then
    ret {| req_url := url; req_method := method; req_data := data;
           req_headers := headers |}
  else raise (Exn "ValueError" ("unknown url type: " +:+ url)).

(** Reading a local variable that may not have been assigned. *)
Definition read_local {A} (name : string) (v : option A) : M A :=
  match v with
  | Some a => ret a
  | None => raise (Exn "UnboundLocalError"
                     ("local variable '" +:+ name +:+ "' referenced before assignment"))
  end.

(** *** check_table_status (lines 30-55) *)
Definition check_table_status (tablename : option string) : M bool :=
  response <- client_describe_table tablename ;;
  locals <- try_except
    (table <- lift (py_getitem response "Table") ;;
     table_status <- lift (py_getitem table "TableStatus") ;;
     if is_str "ACTIVE" table_status
     then ret (Some table_status, true)
     else ret (Some table_status, false))
    (fun _ =>
       log DEBUG MsgTableStatusNotReturned ;;
       ret (None, true)) ;;
  let '(table_status, table_active) := locals in
  table_status <- read_local "table_status" table_status ;;
  log DEBUG (MsgValue table_status) ;;
  ret table_active.

Fixpoint map_exn {A B} (f : A -> exn + B) (l : list A) : exn + list B :=
  match l with
  | [] => inr []
  | x :: l' =>
      match f x with
      | inl e => inl e
      | inr y =>
          match map_exn f l' with
          | inl e => inl e
          | inr ys => inr (y :: ys)
          end
      end
  end.

(** *** check_gsi_status (lines 58-83) *)
Definition check_gsi_status (tablename : option string) : M bool :=
  response <- client_describe_table tablename ;;
  try_except
    (table <- lift (py_getitem response "Table") ;;
     present <- lift (py_contains "GlobalSecondaryIndexes" table) ;;
     if (present : bool) then
       table <- lift (py_getitem response "Table") ;;
       indexes <- lift (py_getitem table "GlobalSecondaryIndexes") ;;
       items <- lift (py_iter indexes) ;;
       GSIs <- lift (map_exn (fun n => py_getitem n "IndexStatus") items) ;;
       if forallb (is_str "ACTIVE") GSIs then ret true else ret false
     else
       log INFO MsgNoGSIs ;;
       ret true)
    (fun _ =>
       log DEBUG MsgFailedToGetGSIs ;;
       ret true).

(** *** table_active_wait (lines 86-125) *)

(** [math.floor(wait_seconds ** (retry / wait_seconds))]: the division
    raises when [wait_seconds] is zero. *)
Definition exp_wait_of (wait_seconds retry : Z) : M Z :=
  if wait_seconds =? 0 then raise (Exn "ZeroDivisionError" "division by zero")
  else ret (pow_floor env wait_seconds retry).

(** [if retry > wait_seconds: retry = wait_seconds] *)
Definition cap_retry (wait_seconds retry : Z) : Z :=
  if retry >? wait_seconds then wait_seconds else retry.

(** The first [while] loop (lines 101-109), entered with the current
    values of [table_active] and [retry]. *)
Fixpoint table_loop (fuel : nat) (table_name : option string) (wait_seconds : Z)
    (table_active : bool) (retry : Z) : M unit :=
  if table_active then ret tt
  else
    match fuel with
    | O => out_of_fuel
    | S fuel' =>
        let retry := cap_retry wait_seconds retry in
        exp_wait <- exp_wait_of wait_seconds retry ;;
        log DEBUG (MsgTableNotActive table_name exp_wait) ;;
        sleep exp_wait ;;
        table_active <- check_table_status table_name ;;
        log DEBUG (MsgFlag table_active) ;;
        let retry := retry + 1 in
        table_loop fuel' table_name wait_seconds table_active retry
    end.

(** The second [while] loop (lines 115-123). *)
Fixpoint gsi_loop (fuel : nat) (table_name : option string) (wait_seconds : Z)
    (gsi_active : bool) (retry : Z) : M unit :=
  if gsi_active then ret tt
  else
    match fuel with
    | O => out_of_fuel
    | S fuel' =>
        let retry := cap_retry wait_seconds retry in
        exp_wait <- exp_wait_of wait_seconds retry ;;
        log DEBUG (MsgGSIsNotActive table_name exp_wait) ;;
        sleep exp_wait ;;
        gsi_active <- check_gsi_status table_name ;;
        log DEBUG (MsgFlag gsi_active) ;;
        let retry := retry + 1 in
        gsi_loop fuel' table_name wait_seconds gsi_active retry
    end.

Definition table_active_wait (fuel : nat) (table_name : option string)
    (wait_seconds : Z) : M unit :=
  table_loop fuel table_name wait_seconds false 0 ;;
  log DEBUG (MsgTableActive table_name) ;;
  gsi_loop fuel table_name wait_seconds false 0 ;;
  log DEBUG (MsgGSIsActive table_name) ;;
  ret tt.

(** *** function_retry (lines 128-161) *)

(** Running [m] inside a [try]: an exception becomes a value. *)
Definition attempt {A} (m : M A) : M (exn + A) :=
  fun w =>
    match m w with
    | (Ok a, w') => (Ok (inr a), w')
    | (Raise e, w') => (Ok (inl e), w')
    | (OutOfFuel, w') => (OutOfFuel, w')
    end.

(** The [while retry <= num_retries] loop of [wrapper].  [Some v] is the
    value [fn] returned, [None] is Python's [None] of the two paths on
    which [wrapper] returns nothing.  [iters] bounds the number of
    iterations; [function_retry] passes a bound the loop cannot exceed. *)
Fixpoint wrapper_loop {A} (iters : nat) (fn_name : string) (fn : M A)
    (context : Context) (num_retries wait_seconds retry : Z) : M (option A) :=
  if retry <=? num_retries then
    match iters with
    | O => out_of_fuel
    | S iters' =>
        remaining <- context_get_remaining_time_in_millis context ;;
        if remaining <=? 10000 then
          raise (Exn "Exception" "Function was about to timeout")
        else
          r <- attempt fn ;;
          match r with
          | inr v => ret (Some v)
          | inl e =>
              log DEBUG (MsgRetrying fn_name wait_seconds) ;;
              log DEBUG (MsgRetriesRemaining (num_retries - retry)) ;;
              log DEBUG (MsgRetryCause e) ;;
              if str_contains "already exists" (exn_str e) then
                log INFO (MsgAlreadyCreated fn_name) ;;
                ret None
              else
                sleep wait_seconds ;;
                let retry := retry + 1 in
                (if retry >? num_retries
                 then log INFO (MsgFailedAfter fn_name num_retries)
                 else ret tt) ;;
                wrapper_loop iters' fn_name fn context num_retries wait_seconds retry
          end
    end
  else ret None.

(** [function_retry(fn)(context, num_retries=.., wait_seconds=..)]: the
    loop starts at [retry = 0] and [retry] grows by one per iteration, so
    [num_retries + 1] iterations are all it can make. *)
Definition function_retry {A} (fn_name : string) (fn : M A) (context : Context)
    (num_retries wait_seconds : Z) : M (option A) :=
  wrapper_loop (Z.to_nat (num_retries + 1)) fn_name fn context
    num_retries wait_seconds 0.

(** *** create_gsi_1 and create_gsi_2 (lines 164-275) *)

Definition gsi_1_request : UpdateTableReq :=
  {| AttributeDefinitions := [("primary", "N"); ("gsikey", "N")];
     TableName := TABLE_NAME env;
     Create := {| IndexName := GSI_1 env;
                  KeySchema := [("gsikey", "HASH")];
                  ProjectionType := "INCLUDE";
                  NonKeyAttributes := ["primary"];
                  ReadCapacityUnits := 5;
                  WriteCapacityUnits := 5 |} |}.

Definition gsi_2_request : UpdateTableReq :=
  {| AttributeDefinitions := [("primary", "N"); ("gsikey", "N"); ("gsisortkey", "N")];
     TableName := TABLE_NAME env;
     Create := {| IndexName := GSI_2 env;
                  KeySchema := [("gsikey", "HASH"); ("gsisortkey", "RANGE")];
                  ProjectionType := "INCLUDE";
                  NonKeyAttributes := ["primary"];
                  ReadCapacityUnits := 5;
                  WriteCapacityUnits := 5 |} |}.

(** The undecorated bodies. *)
Definition create_gsi_1_body : M unit :=
  try_except
    (log INFO (MsgAddingGSI 1) ;;
     client_update_table gsi_1_request ;;
     log INFO (MsgGSIAdded 1))
    (fun e => raise e).

Definition create_gsi_2_body : M unit :=
  try_except
    (log INFO (MsgAddingGSI 2) ;;
     client_update_table gsi_2_request ;;
     log INFO (MsgGSIAdded 2))
    (fun e => raise e).

(** The decorated functions, with the keyword arguments of [wrapper]. *)
Definition create_gsi_1 (context : Context) (num_retries wait_seconds : Z)
    : M (option unit) :=
  function_retry "create_gsi_1" create_gsi_1_body context num_retries wait_seconds.

Definition create_gsi_2 (context : Context) (num_retries wait_seconds : Z)
    : M (option unit) :=
  function_retry "create_gsi_2" create_gsi_2_body context num_retries wait_seconds.

(** *** send_response (lines 278-321) *)

(** [event[k]] *)
Definition event_get (event : gmap string string) (k : string) : M string :=
  match event !! k with
  | Some v => ret v
  | None => raise (KeyError k)
  end.

(** The dictionary handed to [json.dumps], in the order it is written. *)
Definition response_dict (status reason physical stack request logical : string)
    : list (string * string) :=
  [("Status", status); ("Reason", reason); ("PhysicalResourceId", physical);
   ("StackId", stack); ("RequestId", request); ("LogicalResourceId", logical)].

(** [if not reason: reason = f"See the details ..."]: [None] and the
    empty string are both false. *)
Definition reason_or_default (context : Context) (reason : option string) : string :=
  match reason with
  | Some (String c r) => String c r
  | _ => "See the details in CloudWatch Log Stream: " +:+ log_stream_name context
  end.

Definition send_response (context : Context) (event : gmap string string)
    (status : string) (reason : option string) : M unit :=
  let reason := reason_or_default context reason in
  stack <- event_get event "StackId" ;;
  request_id <- event_get event "RequestId" ;;
  logical <- event_get event "LogicalResourceId" ;;
  let response_body :=
    json_dumps env
      (response_dict status reason (log_stream_name context) stack request_id logical) in
  let encoded_body := response_body in
  log INFO (MsgResponse response_body) ;;
  url <- event_get event "ResponseURL" ;;
  request <- urllib_request_Request url "PUT" encoded_body
               [("content-type", HStr EmptyString);
                ("content-length", HInt (Z.of_nat (String.length encoded_body)))] ;;
  log INFO (MsgResponseRequest request) ;;
  log INFO MsgSending ;;
  try_except
    (urllib_request_urlopen request ;;
     log INFO MsgSent)
    (fun e => log ERROR (MsgSendFailed e)).

(** *** lambda_handler (lines 324-356) *)

(** [fuel] bounds each polling loop.  The keyword arguments of the callees
    are the defaults: [wait_seconds = 15] for [table_active_wait],
    [num_retries = 5] and [wait_seconds = 30] for the creators. *)
Definition lambda_handler (fuel : nat) (event : gmap string string)
    (context : Context) : M unit :=
  log DEBUG (MsgEvent event) ;;
  log DEBUG (MsgContext context) ;;
  table_active_wait fuel (TABLE_NAME env) 15 ;;
  log INFO (MsgCreatingGSI 1 (TABLE_NAME env)) ;;
  create_gsi_1 context 5 30 ;;
  table_active_wait fuel (TABLE_NAME env) 15 ;;
  log INFO (MsgCreatingGSI 2 (TABLE_NAME env)) ;;
  create_gsi_2 context 5 30 ;;
  table_active_wait fuel (TABLE_NAME env) 15 ;;
  try_except
    (send_response context event "SUCCESS" None)
    (fun _ =>
       log ERROR MsgSuccessSendFailed ;;
       send_response context event "FAILURE" None).

End AddGsi.

(** ** Sample environments

    Concrete answers of the outside world, used to run the module on
    explicit inputs. *)
Module Sample.

Definition table_response (status : string) : jvalue :=
  JDict [("Table", JDict [("TableName", JStr "orders"); ("TableStatus", JStr status)])].

Definition indexed_response (status : string) (index_statuses : list string) : jvalue :=
  JDict [("Table",
          JDict [("TableName", JStr "orders");
                 ("TableStatus", JStr status);
                 ("GlobalSecondaryIndexes",
                  JList (map (fun s => JDict [("IndexStatus", JStr s)]) index_statuses))])].

(** The exact value of [floor(b ^ (r / b))] for [0 <= r] and [1 <= b]: the
    largest [k <= b] with [k ^ b <= b ^ r]. *)
Fixpoint root_search (n : nat) (b r : Z) : Z :=
  match n with
  | O => 0
  | S n' => if Z.of_nat n ^ b <=? b ^ r then Z.of_nat n else root_search n' b r
  end.
Definition exact_pow_floor (b r : Z) : Z := root_search (Z.to_nat b) b r.

Definition quote : string := String (Ascii.ascii_of_nat 34) EmptyString.

Fixpoint dumps_items (d : list (string * string)) : string :=
  match d with
  | [] => EmptyString
  | [(k, v)] => quote +:+ k +:+ quote +:+ ": " +:+ quote +:+ v +:+ quote
  | (k, v) :: d' =>
      quote +:+ k +:+ quote +:+ ": " +:+ quote +:+ v +:+ quote +:+ ", " +:+ dumps_items d'
  end.
(** [json.dumps] on strings that need no escaping. *)
Definition dumps (d : list (string * string)) : string := "{" +:+ dumps_items d +:+ "}".

Definition make_env (describe : nat -> exn + jvalue) (update : nat -> option exn)
    (remaining : nat -> Z) (open : nat -> option exn) : Env :=
  {| TABLE_NAME := Some "orders";
     GSI_1 := Some "by_gsikey";
     GSI_2 := Some "by_gsikey_sorted";
     describe_table := fun n _ => describe n;
     update_table := fun n _ => update n;
     get_remaining_time_in_millis := remaining;
     urlopen := fun n _ => open n;
     pow_floor := exact_pow_floor;
     json_dumps := dumps;
     url_has_type := str_contains "://" |}.

Definition context : Context := {| log_stream_name := "2026/11/04/[$LATEST]abcdef" |}.

Definition event : gmap string string :=
  <["ResponseURL" := "https://cloudformation-custom-resource-response.example/put"]>
  (<["StackId" := "arn:aws:cloudformation:us-east-1:123456789012:stack/gsi/guid"]>
  (<["RequestId" := "req-0001"]>
  (<["LogicalResourceId" := "AddGsi"]>
  (<["RequestType" := "Create"]> ∅)))).

Definition already_exists : exn :=
  Exn "ClientError"
    "An error occurred (ValidationException) when calling the UpdateTable operation: Attempting to create an index which already exists".

Definition throttled : exn :=
  Exn "ClientError"
    "An error occurred (LimitExceededException) when calling the UpdateTable operation: Subscriber limit exceeded".

End Sample.

(** * Vocabulary of the statements *)

Definition timeout_exn : exn := Exn "Exception" "Function was about to timeout".

(** What the wrapper logs when an attempt fails with an error whose
    message contains 'already exists'. *)
Definition already_exists_events (fn_name : string) (num_retries wait_seconds : Z)
    (e : exn) (retry : Z) : list Event :=
  [EvLog DEBUG (MsgRetrying fn_name wait_seconds);
   EvLog DEBUG (MsgRetriesRemaining (num_retries - retry));
   EvLog DEBUG (MsgRetryCause e);
   EvLog INFO (MsgAlreadyCreated fn_name)].

(** [emits P m]: whatever [m] does, it only appends events satisfying [P]
    to the trace. *)
Definition emits {A} (P : Event -> Prop) (m : M A) : Prop :=
  forall w r w', m w = (r, w') -> exists t, w' = w ++ t /\ Forall P t.

(** The events of the readiness poller. *)
Definition poll_event (e : Event) : Prop :=
  match e with
  | EvSleep _ | EvDescribeTable _ => True
  | EvLog _ msg =>
      match msg with
      | MsgTableStatusNotReturned | MsgValue _ | MsgNoGSIs | MsgFailedToGetGSIs
      | MsgTableNotActive _ _ | MsgFlag _ | MsgTableActive _
      | MsgGSIsNotActive _ _ | MsgGSIsActive _ => True
      | _ => False
      end
  | _ => False
  end.

(** The events of the creation of index [i] through the retry wrapper:
    the only request sent is [req]. *)
Definition create_event (i : nat) (fn_name : string) (req : UpdateTableReq)
    (e : Event) : Prop :=
  match e with
  | EvRemainingTime | EvSleep _ => True
  | EvUpdateTable r => r = req
  | EvLog _ msg =>
      match msg with
      | MsgRetrying n _ | MsgAlreadyCreated n | MsgFailedAfter n _ => n = fn_name
      | MsgRetriesRemaining _ | MsgRetryCause _ => True
      | MsgAddingGSI j | MsgGSIAdded j | MsgCreatingGSI j _ => j = i
      | _ => False
      end
  | _ => False
  end.

(** The events of the notification step. *)
Definition notify_event (e : Event) : Prop :=
  match e with
  | EvUrlopen _ => True
  | EvLog _ msg =>
      match msg with
      | MsgResponse _ | MsgResponseRequest _ | MsgSending | MsgSent
      | MsgSendFailed _ | MsgSuccessSendFailed => True
      | _ => False
      end
  | _ => False
  end.

(** What one attempt of a creator adds to the trace when [update_table]
    raises [e], an error that does not say 'already exists'. *)
Definition failed_attempt_events (i : nat) (fn_name : string) (req : UpdateTableReq)
    (num_retries wait_seconds retry : Z) (e : exn) : list Event :=
  [EvRemainingTime;
   EvLog INFO (MsgAddingGSI i);
   EvUpdateTable req;
   EvLog DEBUG (MsgRetrying fn_name wait_seconds);
   EvLog DEBUG (MsgRetriesRemaining (num_retries - retry));
   EvLog DEBUG (MsgRetryCause e);
   EvSleep wait_seconds]
  ++ (if retry + 1 >? num_retries
      then [EvLog INFO (MsgFailedAfter fn_name num_retries)]
      else []).

(** [n] failed attempts in a row, the first one being attempt number
    [retry] of the wrapper and call number [call] of [update_table];
    [errors k] is the error raised by call [k]. *)
Fixpoint failed_attempts (i : nat) (fn_name : string) (req : UpdateTableReq)
    (num_retries wait_seconds : Z) (errors : nat -> exn)
    (call : nat) (retry : Z) (n : nat) : list Event :=
  match n with
  | O => []
  | S n' =>
      failed_attempt_events i fn_name req num_retries wait_seconds retry (errors call)
      ++ failed_attempts i fn_name req num_retries wait_seconds errors
           (S call) (retry + 1) n'
  end.

(** The requests put on the wire in a trace. *)
Fixpoint urlopen_requests (t : list Event) : list Request :=
  match t with
  | [] => []
  | EvUrlopen r :: t' => r :: urlopen_requests t'
  | _ :: t' => urlopen_requests t'
  end.

(** The request [send_response] builds. *)
Definition notification_request (env : Env) (context : Context)
    (status reason stack request_id logical url : string) : Request :=
  let body :=
    json_dumps env
      [("Status", status); ("Reason", reason);
       ("PhysicalResourceId", log_stream_name context);
       ("StackId", stack); ("RequestId", request_id);
       ("LogicalResourceId", logical)] in
  {| req_url := url;
     req_method := "PUT";
     req_data := body;
     req_headers := [("content-type", HStr EmptyString);
                     ("content-length", HInt (Z.of_nat (String.length body)))] |}.

Definition default_reason (context : Context) : string :=
  "See the details in CloudWatch Log Stream: " +:+ log_stream_name context.

(** What [send_response] logs after [urlopen]: success, or the error it
    caught. *)
Definition send_outcome_event (env : Env) (w : World) (request : Request) : Event :=
  match urlopen env (n_urlopen w) request with
  | None => EvLog INFO MsgSent
  | Some e => EvLog ERROR (MsgSendFailed e)
  end.

(** The events of a call of [send_response] that reaches [urlopen]. *)
Definition send_events (env : Env) (w : World) (request : Request) : list Event :=
  [EvLog INFO (MsgResponse (req_data request));
   EvLog INFO (MsgResponseRequest request);
   EvLog INFO MsgSending;
   EvUrlopen request;
   send_outcome_event env w request].

(** [lambda_handler] up to its last statement, which is left open:
    [lambda_handler] itself is [lambda_handler_then] the [try] statement
    of lines 352-356. *)
Definition lambda_handler_then (env : Env) (fuel : nat) (event : gmap string string)
    (context : Context) (last : M unit) : M unit :=
  (log DEBUG (MsgEvent event) ;;
   log DEBUG (MsgContext context) ;;
   table_active_wait env fuel (TABLE_NAME env) 15 ;;
   log INFO (MsgCreatingGSI 1 (TABLE_NAME env)) ;;
   create_gsi_1 env context 5 30 ;;
   table_active_wait env fuel (TABLE_NAME env) 15 ;;
   log INFO (MsgCreatingGSI 2 (TABLE_NAME env)) ;;
   create_gsi_2 env context 5 30 ;;
   table_active_wait env fuel (TABLE_NAME env) 15 ;;
   last)%py.

(** Lines 336-351: the two creations and the three readiness waits. *)
Definition creations (env : Env) (fuel : nat) (event : gmap string string)
    (context : Context) : M unit :=
  lambda_handler_then env fuel event context (ret tt).

(** Lines 352-356: the notification step. *)
Definition notification (env : Env) (event : gmap string string)
    (context : Context) : M unit :=
  try_except
    (send_response env context event "SUCCESS" None)
    (fun _ =>
       log ERROR MsgSuccessSendFailed ;;
       send_response env context event "FAILURE" None)%py.

(** The events of [creations]. *)
Definition creation_event (env : Env) (e : Event) : Prop :=
  match e with
  | EvLog _ (MsgEvent _) | EvLog _ (MsgContext _) => True
  | _ =>
      poll_event e
      \/ create_event 1 "create_gsi_1" (gsi_1_request env) e
      \/ create_event 2 "create_gsi_2" (gsi_2_request env) e
  end.

(** Whether [send_response] can build its request: the event has the four
    keys it reads and the library accepts the URL. *)
Definition sendable (env : Env) (event : gmap string string) : bool :=
  match event !! "StackId", event !! "RequestId",
        event !! "LogicalResourceId", event !! "ResponseURL" with
  | Some _, Some _, Some _, Some url => url_has_type env url
  | _, _, _, _ => false
  end.

(** [extends m m']: [m'] does what [m] does on every run of [m] that does
    not stop for lack of fuel. *)
Definition extends {A} (m m' : M A) : Prop :=
  forall w r w', m w = (r, w') -> r <> OutOfFuel -> m' w = (r, w').

Definition is_log (e : Event) : bool :=
  match e with EvLog _ _ => true | _ => false end.

(** Reading the status as lines 46 does: [response['Table']['TableStatus']]. *)
Definition read_table_status (response : jvalue) : exn + jvalue :=
  match py_getitem response "Table" with
  | inr table => py_getitem table "TableStatus"
  | inl e => inl e
  end.

Definition unbound_table_status : exn :=
  Exn "UnboundLocalError" "local variable 'table_status' referenced before assignment".

(** [completes n m]: from every world, given enough fuel, [m] returns
    normally; on the way it calls [update_table] [n] times and sends no
    request to the callback URL. *)
Definition completes {A} (n : nat) (m : nat -> M A) : Prop :=
  forall w, exists fuel0 t a,
    (forall fuel, (fuel0 <= fuel)%nat -> m fuel w = (Ok a, w ++ t))
    /\ count is_update t = n
    /\ urlopen_requests t = [].

(** What a creator adds to the trace when [update_table] succeeds. *)
Definition created_events (i : nat) (req : UpdateTableReq) : list Event :=
  [EvRemainingTime;
   EvLog INFO (MsgAddingGSI i);
   EvUpdateTable req;
   EvLog INFO (MsgGSIAdded i)].

(** What a creator adds to the trace when [update_table] raises [e], an
    error that says 'already exists', on the first attempt. *)
Definition existing_events (i : nat) (fn_name : string) (req : UpdateTableReq)
    (num_retries wait_seconds : Z) (e : exn) : list Event :=
  [EvRemainingTime;
   EvLog INFO (MsgAddingGSI i);
   EvUpdateTable req]
  ++ already_exists_events fn_name num_retries wait_seconds e 0.

(** How a step of [lambda_handler] bears on the run: when the step has
    returned, the run goes on with [next]; when it has not, the run ends
    there, with the step's outcome [x] and the world [after] it left. *)
Definition continues {A} (x : outcome A) (after : World)
    (r : outcome unit) (w' : World) (next : Prop) : Prop :=
  match x with
  | Ok _ => next
  | Raise e => r = Raise e /\ w' = after
  | OutOfFuel => r = OutOfFuel /\ w' = after
  end.

(** Lines 341-342 and 346-347 of [lambda_handler]: announcing and running
    one creation, with the default keyword arguments. *)
Definition creation_step_1 (env : Env) (context : Context) : M (option unit) :=
  (log INFO (MsgCreatingGSI 1 (TABLE_NAME env)) ;; create_gsi_1 env context 5 30)%py.

Definition creation_step_2 (env : Env) (context : Context) : M (option unit) :=
  (log INFO (MsgCreatingGSI 2 (TABLE_NAME env)) ;; create_gsi_2 env context 5 30)%py.

(** * Scenarios

    Environments for the concrete runs below, on the table ["orders"]. *)
Module Scenario.
Import Sample.

Definition table : option string := Some "orders".

(** The table is active, every call succeeds. *)
Definition env_ok : Env :=
  make_env (fun _ => inr (table_response "ACTIVE")) (fun _ => None)
           (fun _ => 300000) (fun _ => None).

(** Less than the safety margin is left. *)
Definition env_late : Env :=
  make_env (fun _ => inr (table_response "ACTIVE")) (fun _ => None)
           (fun _ => 9000) (fun _ => None).

(** The first [update_table] succeeds, the later ones find the index. *)
Definition env_again : Env :=
  make_env (fun _ => inr (table_response "ACTIVE"))
           (fun n => match n with O => None | S _ => Some already_exists end)
           (fun _ => 300000) (fun _ => None).

(** Every [update_table] fails with an unrelated error. *)
Definition env_throttled : Env :=
  make_env (fun _ => inr (table_response "ACTIVE")) (fun _ => Some throttled)
           (fun _ => 300000) (fun _ => None).

(** The table is CREATING for two polls, then ACTIVE. *)
Definition env_creating : Env :=
  make_env (fun n => inr (table_response (if (n <? 2)%nat then "CREATING" else "ACTIVE")))
           (fun _ => None) (fun _ => 300000) (fun _ => None).

(** [describe_table] answers an empty dictionary. *)
Definition env_no_status : Env :=
  make_env (fun _ => inr (JDict [])) (fun _ => None)
           (fun _ => 300000) (fun _ => None).

(** The callback URL cannot be reached. *)
Definition connection_refused : exn :=
  Exn "URLError" "<urlopen error [Errno 111] Connection refused>".
Definition env_unreachable : Env :=
  make_env (fun _ => inr (table_response "ACTIVE")) (fun _ => None)
           (fun _ => 300000) (fun _ => Some connection_refused).

Definition stack_id : string :=
  "arn:aws:cloudformation:us-east-1:123456789012:stack/gsi/guid".
Definition callback_url : string :=
  "https://cloudformation-custom-resource-response.example/put".

Definition success_request (env : Env) : Request :=
  notification_request env context "SUCCESS" (default_reason context)
    stack_id "req-0001" "AddGsi" callback_url.

End Scenario.

(** * Vocabulary of the further properties *)

(** The lengths of the sleeps in a trace, in order. *)
Fixpoint sleeps_of (t : list Event) : list Z :=
  match t with
  | [] => []
  | EvSleep secs :: t' => secs :: sleeps_of t'
  | _ :: t' => sleeps_of t'
  end.

(** The [update_table] requests in a trace, in order. *)
Fixpoint update_requests (t : list Event) : list UpdateTableReq :=
  match t with
  | [] => []
  | EvUpdateTable req :: t' => req :: update_requests t'
  | _ :: t' => update_requests t'
  end.

Definition log_event (e : Event) : Prop := is_log e = true.

Definition negative_sleep : exn := Exn "ValueError" "sleep length must be non-negative".

(** The waits of [n] polls in a row, the first one made with the retry
    counter at [retry]: the counter grows by one per poll and stays at
    [wait_seconds] once it has reached it. *)
Definition backoff_waits (env : Env) (wait_seconds retry : Z) (n : nat) : list Z :=
  map (fun i => pow_floor env wait_seconds (Z.min (retry + Z.of_nat i) wait_seconds))
      (seq 0 n).

(** The events of a creator of [lambda_handler] that makes one attempt
    only: the index is created, or it is found to exist. *)
Definition single_attempt (i : nat) (fn_name : string) (req : UpdateTableReq)
    (c : list Event) : Prop :=
  c = created_events i req
  \/ exists e, str_contains "already exists" (exn_str e) = true
             /\ c = existing_events i fn_name req 5 30 e.

(** Further environments for the concrete runs. *)
Module Scenario2.
Import Sample.

Definition table : option string := Some "orders".

(** [describe_table] fails: the table does not exist. *)
Definition not_found : exn :=
  Exn "ResourceNotFoundException"
    "An error occurred (ResourceNotFoundException) when calling the DescribeTable operation: Requested resource not found".
Definition env_no_table : Env :=
  make_env (fun _ => inl not_found) (fun _ => None) (fun _ => 300000) (fun _ => None).

(** One index is still being built, the other is ready. *)
Definition env_index_building : Env :=
  make_env (fun _ => inr (indexed_response "ACTIVE" ["ACTIVE"; "CREATING"]))
           (fun _ => None) (fun _ => 300000) (fun _ => None).

(** A response whose index entry carries no status. *)
Definition unlabelled_response : jvalue :=
  JDict [("Table",
          JDict [("TableStatus", JStr "ACTIVE");
                 ("GlobalSecondaryIndexes",
                  JList [JDict [("IndexStatus", JStr "CREATING")];
                         JDict [("IndexName", JStr "by_gsikey")]])])].
Definition env_unlabelled : Env :=
  make_env (fun _ => inr unlabelled_response) (fun _ => None)
           (fun _ => 300000) (fun _ => None).

(** The table is UPDATING for one poll; then its index is CREATING for two
    more polls; then all is ACTIVE. *)
Definition env_converging : Env :=
  make_env
    (fun n =>
       inr (match n with
            | O => indexed_response "UPDATING" ["CREATING"]
            | S O | S (S O) | S (S (S O)) => indexed_response "ACTIVE" ["CREATING"]
            | _ => indexed_response "ACTIVE" ["ACTIVE"]
            end))
    (fun _ => None) (fun _ => 300000) (fun _ => None).

(** [update_table] is throttled twice, then succeeds. *)
Definition env_third_time : Env :=
  make_env (fun _ => inr (table_response "ACTIVE"))
           (fun n => match n with O | S O => Some throttled | _ => None end)
           (fun _ => 300000) (fun _ => None).

(** [update_table] keeps failing while the time runs out: 40 s are left
    at first and every reading finds 15 s less. *)
Definition env_running_out : Env :=
  make_env (fun _ => inr (table_response "ACTIVE")) (fun _ => Some throttled)
           (fun n => 40000 - 15000 * Z.of_nat n) (fun _ => None).

(** Both indexes exist already. *)
Definition env_rerun : Env :=
  make_env (fun _ => inr (indexed_response "ACTIVE" ["ACTIVE"; "ACTIVE"]))
           (fun _ => Some already_exists) (fun _ => 300000) (fun _ => None).

(** An event without its stack identifier. *)
Definition event_without_stack : gmap string string :=
  <["ResponseURL" := "https://cloudformation-custom-resource-response.example/put"]>
  (<["RequestId" := "req-0001"]>
  (<["LogicalResourceId" := "AddGsi"]> ∅)).


End Scenario2.

(** * Properties *)

(** ** Running the monad *)

Lemma count_app (p : Event -> bool) (t1 t2 : list Event) :
  count p (t1 ++ t2) = (count p t1 + count p t2)%nat.
Proof.
  induction t1 as [|e t1 IH]; simpl; [reflexivity|].
  rewrite IH. lia.
Qed.

Lemma bind_ok {A B} (m : M A) (k : A -> M B) (w w' : World) (a : A) :
  m w = (Ok a, w') -> bind m k w = k a w'.
Proof. intros H. unfold bind. rewrite H. reflexivity. Qed.

Lemma app_cons_assoc {A} (w : list A) (e : A) (t : list A) :
  (w ++ [e]) ++ t = w ++ e :: t.
Proof. rewrite <- app_assoc. reflexivity. Qed.

(** Unfolds the primitive steps of a run and puts the trace in the form
    [w ++ t]. *)
Ltac step :=
  unfold bind, ret, raise, out_of_fuel, log, emit, lift, try_except, attempt;
  simpl;
  rewrite ?app_cons_assoc, <- ?app_assoc; simpl.

(** Pushes [count] through concatenations. *)
Ltac count_events := repeat (progress (simpl; rewrite ?count_app)).

(** ** The retry wrapper aborts when time is short (C4) *)

Section Wrapper.

Variable env : Env.
Context {A : Type}.
Variables (fn_name : string) (fn : M A) (context : Context).
Variables (num_retries wait_seconds : Z).


(** ** "already exists" ends the retries (C5) *)

Lemma wrapper_already_exists (iters : nat) (retry : Z) (w w1 : World) (e : exn) :
  retry <= num_retries ->
  10000 < get_remaining_time_in_millis env (n_remaining w) ->
  fn (w ++ [EvRemainingTime]) = (Raise e, w1) ->
  str_contains "already exists" (exn_str e) = true ->
  wrapper_loop env (S iters) fn_name fn context num_retries wait_seconds retry w
  = (Ok None, w1 ++ already_exists_events fn_name num_retries wait_seconds e retry).
Proof.
  intros Hretry Hrem Hfn He. simpl.
  apply Z.leb_le in Hretry. rewrite Hretry.
  unfold bind at 1. unfold context_get_remaining_time_in_millis.
  assert (Hgt : (get_remaining_time_in_millis env (n_remaining w) <=? 10000) = false)
    by (apply Z.leb_gt; lia).
  rewrite Hgt.
  unfold bind at 1. unfold attempt. rewrite Hfn.
  step. rewrite He. step. reflexivity.
Qed.

End Wrapper.

(** ** Which events a function can add to the trace *)

Lemma emits_ret {A} (P : Event -> Prop) (a : A) : emits P (ret a).
Proof.
  intros w r w' H. inversion H; subst. exists []. rewrite app_nil_r. auto.
Qed.

Lemma emits_raise {A} (P : Event -> Prop) (e : exn) : emits P (raise e : M A).
Proof.
  intros w r w' H. inversion H; subst. exists []. rewrite app_nil_r. auto.
Qed.

Lemma emits_out_of_fuel {A} (P : Event -> Prop) : emits P (out_of_fuel : M A).
Proof.
  intros w r w' H. inversion H; subst. exists []. rewrite app_nil_r. auto.
Qed.

Lemma emits_emit (P : Event -> Prop) (e : Event) : P e -> emits P (emit e).
Proof.
  intros He w r w' H. inversion H; subst. exists [e]. auto.
Qed.

Lemma emits_log (P : Event -> Prop) lvl msg : P (EvLog lvl msg) -> emits P (log lvl msg).
Proof. apply emits_emit. Qed.

Lemma emits_lift {A} (P : Event -> Prop) (x : exn + A) : emits P (lift x).
Proof. destruct x; [apply emits_raise | apply emits_ret]. Qed.

Lemma emits_bind {A B} (P : Event -> Prop) (m : M A) (k : A -> M B) :
  emits P m -> (forall a, emits P (k a)) -> emits P (bind m k).
Proof.
  intros Hm Hk w r w' H. unfold bind in H.
  destruct (m w) as [[a|e|] w1] eqn:E; destruct (Hm _ _ _ E) as (t1 & -> & F1).
  - destruct (Hk a _ _ _ H) as (t2 & -> & F2).
    exists (t1 ++ t2). rewrite app_assoc. split; [reflexivity|].
    apply Forall_app; auto.
  - inversion H; subst. eauto.
  - inversion H; subst. eauto.
Qed.

Lemma emits_try_except {A} (P : Event -> Prop) (m : M A) (h : exn -> M A) :
  emits P m -> (forall e, emits P (h e)) -> emits P (try_except m h).
Proof.
  intros Hm Hh w r w' H. unfold try_except in H.
  destruct (m w) as [[a|e|] w1] eqn:E; destruct (Hm _ _ _ E) as (t1 & -> & F1).
  - inversion H; subst. eauto.
  - destruct (Hh e _ _ _ H) as (t2 & -> & F2).
    exists (t1 ++ t2). rewrite app_assoc. split; [reflexivity|].
    apply Forall_app; auto.
  - inversion H; subst. eauto.
Qed.

Lemma emits_attempt {A} (P : Event -> Prop) (m : M A) :
  emits P m -> emits P (attempt m).
Proof.
  intros Hm w r w' H. unfold attempt in H.
  destruct (m w) as [[a|e|] w1] eqn:E; destruct (Hm _ _ _ E) as (t1 & -> & F1);
    inversion H; subst; eauto.
Qed.

Lemma emits_weaken {A} (P Q : Event -> Prop) (m : M A) :
  (forall e, P e -> Q e) -> emits P m -> emits Q m.
Proof.
  intros HPQ Hm w r w' H. destruct (Hm _ _ _ H) as (t & -> & F).
  exists t. split; [reflexivity|]. eapply Forall_impl; eauto.
Qed.

Lemma emits_sleep (P : Event -> Prop) (secs : Z) :
  P (EvSleep secs) -> emits P (sleep secs).
Proof.
  intros HP. unfold sleep. destruct (secs <? 0); [apply emits_raise | apply emits_emit, HP].
Qed.

(** Decomposes a goal [emits P m] along the structure of [m]. *)
Ltac emits_tac :=
  repeat first
    [ apply emits_ret | apply emits_raise | apply emits_out_of_fuel
    | apply emits_lift
    | apply emits_log; simpl; solve [auto]
    | apply emits_sleep; simpl; solve [auto]
    | apply emits_bind; [|intros ?]
    | apply emits_try_except; [|intros ?]
    | apply emits_attempt
    | match goal with
      | |- emits _ (let '(_, _) := ?x in _) => destruct x
      | |- emits _ (if ?x then _ else _) => destruct x
      | |- emits _ (match ?x with _ => _ end) => destruct x
      end ].

Section Emits.

Variable env : Env.

Lemma emits_describe (P : Event -> Prop) tablename :
  P (EvDescribeTable tablename) -> emits P (client_describe_table env tablename).
Proof.
  intros HP w r w' H. unfold client_describe_table in H.
  destruct (describe_table env (n_describe w) tablename); inversion H; subst;
    exists [EvDescribeTable tablename]; auto.
Qed.

Lemma emits_update (P : Event -> Prop) req :
  P (EvUpdateTable req) -> emits P (client_update_table env req).
Proof.
  intros HP w r w' H. unfold client_update_table in H.
  destruct (update_table env (n_update w) req); inversion H; subst;
    exists [EvUpdateTable req]; auto.
Qed.

Lemma emits_remaining (P : Event -> Prop) context :
  P EvRemainingTime -> emits P (context_get_remaining_time_in_millis env context).
Proof.
  intros HP w r w' H. inversion H; subst. exists [EvRemainingTime]; auto.
Qed.

Lemma emits_urlopen (P : Event -> Prop) request :
  P (EvUrlopen request) -> emits P (urllib_request_urlopen env request).
Proof.
  intros HP w r w' H. unfold urllib_request_urlopen in H.
  destruct (urlopen env (n_urlopen w) request); inversion H; subst;
    exists [EvUrlopen request]; auto.
Qed.

Lemma emits_check_table_status tablename :
  emits poll_event (check_table_status env tablename).
Proof.
  unfold check_table_status, read_local.
  apply emits_bind; [apply emits_describe; exact I | intros response].
  emits_tac.
Qed.

Lemma emits_check_gsi_status tablename :
  emits poll_event (check_gsi_status env tablename).
Proof.
  unfold check_gsi_status.
  apply emits_bind; [apply emits_describe; exact I | intros response].
  emits_tac.
Qed.

Lemma emits_table_loop fuel table_name wait_seconds table_active retry :
  emits poll_event (table_loop env fuel table_name wait_seconds table_active retry).
Proof.
  revert table_active retry.
  induction fuel as [|fuel IH]; intros table_active retry; simpl;
    destruct table_active; try apply emits_ret; try apply emits_out_of_fuel.
  unfold exp_wait_of.
  apply emits_bind; [emits_tac | intros exp_wait].
  apply emits_bind; [emits_tac | intros _].
  apply emits_bind; [emits_tac | intros _].
  apply emits_bind; [apply emits_check_table_status | intros flag].
  apply emits_bind; [emits_tac | intros _].
  apply IH.
Qed.

Lemma emits_gsi_loop fuel table_name wait_seconds gsi_active retry :
  emits poll_event (gsi_loop env fuel table_name wait_seconds gsi_active retry).
Proof.
  revert gsi_active retry.
  induction fuel as [|fuel IH]; intros gsi_active retry; simpl;
    destruct gsi_active; try apply emits_ret; try apply emits_out_of_fuel.
  unfold exp_wait_of.
  apply emits_bind; [emits_tac | intros exp_wait].
  apply emits_bind; [emits_tac | intros _].
  apply emits_bind; [emits_tac | intros _].
  apply emits_bind; [apply emits_check_gsi_status | intros flag].
  apply emits_bind; [emits_tac | intros _].
  apply IH.
Qed.

Lemma emits_table_active_wait fuel table_name wait_seconds :
  emits poll_event (table_active_wait env fuel table_name wait_seconds).
Proof.
  unfold table_active_wait.
  apply emits_bind; [apply emits_table_loop | intros _].
  apply emits_bind; [emits_tac | intros _].
  apply emits_bind; [apply emits_gsi_loop | intros _].
  emits_tac.
Qed.

End Emits.

(** ** The creators *)

Section Creators.

Variable env : Env.
Variables (i : nat) (fn_name : string) (req : UpdateTableReq).

(** The body shared by [create_gsi_1] and [create_gsi_2]. *)
Let body : M unit :=
  try_except
    (log INFO (MsgAddingGSI i) ;;
     client_update_table env req ;;
     log INFO (MsgGSIAdded i))%py
    (fun e => raise e).

Lemma body_raises (w : World) (e : exn) :
  update_table env (n_update w) req = Some e ->
  body w = (Raise e, w ++ [EvLog INFO (MsgAddingGSI i); EvUpdateTable req]).
Proof.
  intros H. unfold body, client_update_table. step.
  unfold n_update in *. rewrite count_app. simpl. rewrite Nat.add_0_r, H.
  step. reflexivity.
Qed.

Lemma body_returns (w : World) :
  update_table env (n_update w) req = None ->
  body w = (Ok tt, w ++ [EvLog INFO (MsgAddingGSI i); EvUpdateTable req;
                         EvLog INFO (MsgGSIAdded i)]).
Proof.
  intros H. unfold body, client_update_table. step.
  unfold n_update in *. rewrite count_app. simpl. rewrite Nat.add_0_r, H.
  step. reflexivity.
Qed.

Lemma emits_body : emits (create_event i fn_name req) body.
Proof.
  unfold body.
  apply emits_try_except; [|intros e; apply emits_raise].
  apply emits_bind; [emits_tac | intros _].
  apply emits_bind; [apply emits_update; reflexivity | intros _].
  emits_tac.
Qed.

Lemma emits_wrapper_loop {A} (fn : M A) context num_retries wait_seconds iters retry :
  emits (create_event i fn_name req) fn ->
  emits (create_event i fn_name req)
    (wrapper_loop env iters fn_name fn context num_retries wait_seconds retry).
Proof.
  intros Hfn. revert retry.
  induction iters as [|iters IH]; intros retry; simpl;
    destruct (retry <=? num_retries); try apply emits_ret; try apply emits_out_of_fuel.
  apply emits_bind; [apply emits_remaining; exact I | intros remaining].
  destruct (remaining <=? 10000); [apply emits_raise|].
  apply emits_bind; [apply emits_attempt, Hfn | intros [e|v]]; [|apply emits_ret].
  apply emits_bind; [emits_tac | intros _].
  apply emits_bind; [emits_tac | intros _].
  apply emits_bind; [emits_tac | intros _].
  destruct (str_contains _ _); [emits_tac|].
  apply emits_bind; [emits_tac | intros _].
  apply emits_bind; [emits_tac | intros _].
  apply IH.
Qed.

(** The loop never runs out of its iteration bound when the bound covers
    the retries that are left. *)
Lemma wrapper_loop_bounded {A} (fn : M A) context num_retries wait_seconds iters retry w :
  num_retries + 1 - retry <= Z.of_nat iters ->
  (forall w1, fst (fn w1) <> OutOfFuel) ->
  fst (wrapper_loop env iters fn_name fn context num_retries wait_seconds retry w)
  <> OutOfFuel.
Proof.
  intros Hb Hfn. revert retry w Hb.
  induction iters as [|iters IH]; intros retry w Hb; simpl.
  - destruct (retry <=? num_retries) eqn:E; [apply Z.leb_le in E; lia | discriminate].
  - destruct (retry <=? num_retries) eqn:E; [|discriminate].
    unfold bind at 1. unfold context_get_remaining_time_in_millis.
    destruct (_ <=? 10000); [discriminate|].
    unfold bind at 1. unfold attempt.
    specialize (Hfn (w ++ [EvRemainingTime])).
    destruct (fn (w ++ [EvRemainingTime])) as [[v|e|] w1]; simpl in *;
      [discriminate | | congruence].
    step. destruct (str_contains _ _); step; [discriminate|].
    unfold sleep. destruct (wait_seconds <? 0); step; [discriminate|].
    destruct (retry + 1 >? num_retries); step; apply IH; lia.
Qed.

(** Every attempt fails with an error other than 'already exists' and
    time never runs short: the loop makes all the attempts that are left,
    sleeping after each, and returns [None]. *)
Lemma wrapper_loop_exhausts context num_retries wait_seconds (errors : nat -> exn)
    (n : nat) (retry : Z) (w : World) :
  0 <= wait_seconds ->
  Z.of_nat n = num_retries + 1 - retry ->
  (forall k, 10000 < get_remaining_time_in_millis env k) ->
  (forall k, update_table env k req = Some (errors k)) ->
  (forall k, str_contains "already exists" (exn_str (errors k)) = false) ->
  wrapper_loop env n fn_name body context num_retries wait_seconds retry w
  = (Ok None,
     w ++ failed_attempts i fn_name req num_retries wait_seconds errors
            (n_update w) retry n).
Proof.
  intros Hws Hn Hrem Hupd Herr. revert retry w Hn.
  induction n as [|n IH]; intros retry w Hn; simpl.
  - assert (E : (retry <=? num_retries) = false) by (apply Z.leb_gt; lia).
    rewrite E, app_nil_r. reflexivity.
  - assert (E : (retry <=? num_retries) = true) by (apply Z.leb_le; lia).
    rewrite E.
    unfold bind at 1. unfold context_get_remaining_time_in_millis.
    assert (R : (get_remaining_time_in_millis env (n_remaining w) <=? 10000) = false)
      by (apply Z.leb_gt, Hrem).
    rewrite R.
    unfold bind at 1. unfold attempt.
    rewrite (body_raises _ (errors (n_update (w ++ [EvRemainingTime])))) by apply Hupd.
    step. rewrite Herr. unfold sleep.
    assert (S0 : (wait_seconds <? 0) = false) by (apply Z.ltb_ge; lia).
    rewrite S0. step.
    unfold failed_attempt_events.
    destruct (retry + 1 >? num_retries) eqn:G; step.
    + rewrite IH by lia. rewrite <- app_assoc. simpl.
      unfold n_update. rewrite ?count_app. simpl.
      rewrite Nat.add_0_r, Nat.add_1_r. reflexivity.
    + rewrite IH by lia. rewrite <- app_assoc. simpl.
      unfold n_update. rewrite ?count_app. simpl.
      rewrite Nat.add_0_r, Nat.add_1_r. reflexivity.
Qed.

End Creators.

(** ** The notifier *)

Section Notifier.

Variable env : Env.
Variables (context : Context) (event : gmap string string).

Lemma n_urlopen_logs (w : World) (t : list Event) :
  count is_urlopen t = O -> n_urlopen (w ++ t) = n_urlopen w.
Proof. intros H. unfold n_urlopen. rewrite count_app, H. lia. Qed.

(** With the four keys in the event and a URL the library accepts, the
    request goes out and [send_response] returns. *)
Lemma send_response_sends (status : string) (reason : option string) (w : World)
    (stack request_id logical url : string) :
  event !! "StackId" = Some stack ->
  event !! "RequestId" = Some request_id ->
  event !! "LogicalResourceId" = Some logical ->
  event !! "ResponseURL" = Some url ->
  url_has_type env url = true ->
  send_response env context event status reason w
  = (Ok tt,
     w ++ send_events env w
            (notification_request env context status
               (reason_or_default context reason) stack request_id logical url)).
Proof.
  intros Hs Hr Hl Hu Ht.
  unfold send_response, event_get, urllib_request_Request.
  rewrite Hs, Hr, Hl. step. rewrite Hu. step. rewrite Ht. step.
  unfold urllib_request_urlopen, send_events, send_outcome_event, notification_request.
  rewrite n_urlopen_logs by reflexivity.
  destruct (urlopen env (n_urlopen w) _); step; reflexivity.
Qed.

Lemma send_response_sendable (status : string) (reason : option string) (w : World) :
  sendable env event = true ->
  exists request,
    send_response env context event status reason w
    = (Ok tt, w ++ send_events env w request)
    /\ exists body, req_data request
         = json_dumps env (("Status", status) :: body).
Proof.
  unfold sendable. intros H.
  destruct (event !! "StackId") as [stack|] eqn:Hs; [|discriminate].
  destruct (event !! "RequestId") as [request_id|] eqn:Hr; [|discriminate].
  destruct (event !! "LogicalResourceId") as [logical|] eqn:Hl; [|discriminate].
  destruct (event !! "ResponseURL") as [url|] eqn:Hu; [|discriminate].
  eexists. split.
  - apply send_response_sends; eassumption.
  - simpl. eexists. reflexivity.
Qed.

Lemma send_response_unsendable (status : string) (reason : option string) (w : World) :
  sendable env event = false ->
  exists e t,
    send_response env context event status reason w = (Raise e, w ++ t)
    /\ Forall notify_event t /\ urlopen_requests t = [].
Proof.
  unfold sendable. intros H.
  unfold send_response, event_get, urllib_request_Request.
  destruct (event !! "StackId") as [stack|];
    [|step; exists (KeyError "StackId"), []; rewrite app_nil_r; auto].
  destruct (event !! "RequestId") as [request_id|];
    [|step; exists (KeyError "RequestId"), []; rewrite app_nil_r; auto].
  destruct (event !! "LogicalResourceId") as [logical|];
    [|step; exists (KeyError "LogicalResourceId"), []; rewrite app_nil_r; auto].
  destruct (event !! "ResponseURL") as [url|].
  - step. rewrite H. step. eexists _, [_]. split; [reflexivity|].
    split; [repeat constructor | reflexivity].
  - step. eexists _, [_]. split; [reflexivity|].
    split; [repeat constructor | reflexivity].
Qed.

End Notifier.

(** ** The handler *)

Section Handler.

Variable env : Env.
Variables (event : gmap string string) (context : Context).

Lemma lambda_handler_unfold (fuel : nat) :
  lambda_handler env fuel event context
  = lambda_handler_then env fuel event context (notification env event context).
Proof. reflexivity. Qed.

Lemma emits_create_gsi_1 num_retries wait_seconds :
  emits (create_event 1 "create_gsi_1" (gsi_1_request env))
    (create_gsi_1 env context num_retries wait_seconds).
Proof. apply emits_wrapper_loop, emits_body. Qed.

Lemma emits_create_gsi_2 num_retries wait_seconds :
  emits (create_event 2 "create_gsi_2" (gsi_2_request env))
    (create_gsi_2 env context num_retries wait_seconds).
Proof. apply emits_wrapper_loop, emits_body. Qed.

Lemma poll_is_creation_event (e : Event) : poll_event e -> creation_event env e.
Proof. destruct e as [lvl []| | | | |]; simpl; auto. Qed.

Lemma create_1_is_creation_event (e : Event) :
  create_event 1 "create_gsi_1" (gsi_1_request env) e -> creation_event env e.
Proof. destruct e as [lvl []| | | | |]; simpl; auto. Qed.

Lemma create_2_is_creation_event (e : Event) :
  create_event 2 "create_gsi_2" (gsi_2_request env) e -> creation_event env e.
Proof. destruct e as [lvl []| | | | |]; simpl; auto. Qed.

Lemma emits_creations (fuel : nat) :
  emits (creation_event env) (creations env fuel event context).
Proof.
  unfold creations, lambda_handler_then.
  assert (W : emits (creation_event env) (table_active_wait env fuel (TABLE_NAME env) 15))
    by (eapply emits_weaken; [apply poll_is_creation_event | apply emits_table_active_wait]).
  apply emits_bind; [apply emits_log; exact I | intros _].
  apply emits_bind; [apply emits_log; exact I | intros _].
  apply emits_bind; [exact W | intros _].
  apply emits_bind; [apply emits_log; simpl; auto | intros _].
  apply emits_bind;
    [eapply emits_weaken; [apply create_1_is_creation_event | apply emits_create_gsi_1]
    | intros _].
  apply emits_bind; [exact W | intros _].
  apply emits_bind; [apply emits_log; simpl; auto | intros _].
  apply emits_bind;
    [eapply emits_weaken; [apply create_2_is_creation_event | apply emits_create_gsi_2]
    | intros _].
  apply emits_bind; [exact W | intros _].
  apply emits_ret.
Qed.

Lemma bind_assoc_at {A B C} (m : M A) (k : A -> M B) (h : B -> M C) (w : World) :
  bind (bind m k) h w = bind m (fun a => bind (k a) h) w.
Proof. unfold bind. destruct (m w) as [[a|e|] w1]; reflexivity. Qed.

Lemma bind_ext_at {A B} (m : M A) (k k' : A -> M B) (w : World) :
  (forall a w1, k a w1 = k' a w1) -> bind m k w = bind m k' w.
Proof. intros H. unfold bind. destruct (m w) as [[a|e|] w1]; auto. Qed.

(** The handler is its creations followed by its last statement. *)
Lemma lambda_handler_then_split (fuel : nat) (last : M unit) (w : World) :
  lambda_handler_then env fuel event context last w
  = bind (creations env fuel event context) (fun _ => last) w.
Proof.
  unfold creations, lambda_handler_then.
  repeat (rewrite bind_assoc_at; apply bind_ext_at; intros ? ?).
  reflexivity.
Qed.

Lemma creation_events_quiet (t : list Event) :
  Forall (creation_event env) t ->
  urlopen_requests t = [] /\ ~ In (EvLog ERROR MsgSuccessSendFailed) t.
Proof.
  induction 1 as [|e t He Ht [IH1 IH2]]; simpl; [auto|].
  destruct e as [lvl msg| | | | |req]; simpl in *; try (split; [assumption|]);
    try (intros [E|E]; [discriminate | contradiction]).
  - intros [E|E]; [|contradiction]. inversion E; subst. simpl in He. tauto.
  - unfold poll_event, create_event in He. tauto.
Qed.

Lemma urlopen_requests_app (t1 t2 : list Event) :
  urlopen_requests (t1 ++ t2) = urlopen_requests t1 ++ urlopen_requests t2.
Proof.
  induction t1 as [|e t1 IH]; simpl; [reflexivity|].
  destruct e; simpl; rewrite ?IH; reflexivity.
Qed.

End Handler.

(** ** The notification payload (C6) *)

Lemma in_urlopen_requests (t : list Event) (request : Request) :
  In (EvUrlopen request) t -> In request (urlopen_requests t).
Proof.
  induction t as [|e t IH]; simpl; [auto|].
  intros [E|H].
  - subst e. left. reflexivity.
  - destruct e; simpl; auto.
Qed.

(** C6. For every event and context: a request that [send_response] puts
    on the wire is the only one it sends, and it is an HTTP PUT to the
    event's [ResponseURL], with header [content-type] set to the empty
    string, whose body is the JSON serialisation of the object with exactly
    the fields Status, Reason, PhysicalResourceId, StackId, RequestId and
    LogicalResourceId, the last three being the event's values.  That
    request is sent, and [send_response] returns, whenever the event
    carries the three identifiers and a callback URL the library accepts. *)
Theorem send_response_payload (env : Env) (context : Context)
    (event : gmap string string) (status : string) (reason : option string)
    (w : World) (r : outcome unit) (t : list Event) :
  send_response env context event status reason w = (r, w ++ t) ->
  let request_for (stack request_id logical url : string) :=
    let body :=
      json_dumps env
        [("Status", status);
         ("Reason", reason_or_default context reason);
         ("PhysicalResourceId", log_stream_name context);
         ("StackId", stack);
         ("RequestId", request_id);
         ("LogicalResourceId", logical)] in
    {| req_url := url;
       req_method := "PUT";
       req_data := body;
       req_headers := [("content-type", HStr EmptyString);
                       ("content-length", HInt (Z.of_nat (String.length body)))] |} in
  (forall request,
     In (EvUrlopen request) t ->
     exists stack request_id logical url,
       event !! "StackId" = Some stack
       /\ event !! "RequestId" = Some request_id
       /\ event !! "LogicalResourceId" = Some logical
       /\ event !! "ResponseURL" = Some url
       /\ request = request_for stack request_id logical url
       /\ urlopen_requests t = [request])
  /\ (forall stack request_id logical url,
        event !! "StackId" = Some stack ->
        event !! "RequestId" = Some request_id ->
        event !! "LogicalResourceId" = Some logical ->
        event !! "ResponseURL" = Some url ->
        url_has_type env url = true ->
        r = Ok tt
        /\ exists outcome,
             t = [EvLog INFO
                    (MsgResponse (req_data (request_for stack request_id logical url)));
                  EvLog INFO
                    (MsgResponseRequest (request_for stack request_id logical url));
                  EvLog INFO MsgSending;
                  EvUrlopen (request_for stack request_id logical url);
                  outcome]).
Proof.
  intros H request_for.
  assert (Sends : forall stack request_id logical url,
             event !! "StackId" = Some stack ->
             event !! "RequestId" = Some request_id ->
             event !! "LogicalResourceId" = Some logical ->
             event !! "ResponseURL" = Some url ->
             url_has_type env url = true ->
             r = Ok tt
             /\ t = send_events env w (request_for stack request_id logical url)).
  { intros stack request_id logical url Hs Hr Hl Hu Ht.
    rewrite (send_response_sends env context event status reason w
               stack request_id logical url Hs Hr Hl Hu Ht) in H.
    inversion H as [[Hr' Hw]]. apply app_inv_head in Hw. split; [reflexivity|].
    rewrite <- Hw. reflexivity. }
  split.
  - intros request Hin.
    destruct (sendable env event) eqn:S.
    + unfold sendable in S.
      destruct (event !! "StackId") as [stack|] eqn:Hs; [|discriminate].
      destruct (event !! "RequestId") as [request_id|] eqn:Hr; [|discriminate].
      destruct (event !! "LogicalResourceId") as [logical|] eqn:Hl; [|discriminate].
      destruct (event !! "ResponseURL") as [url|] eqn:Hu; [|discriminate].
      destruct (Sends stack request_id logical url eq_refl eq_refl eq_refl eq_refl S)
        as [_ ->].
      exists stack, request_id, logical, url.
      repeat (split; [reflexivity|]).
      unfold send_events, send_outcome_event in *.
      destruct (urlopen env (n_urlopen w) _); simpl in Hin |- *;
        destruct Hin as [F|[F|[F|[F|[F|[]]]]]]; try discriminate;
        inversion F; subst; split; reflexivity.
    + destruct (send_response_unsendable env context event status reason w S)
        as (e & t1 & E & _ & U).
      rewrite E in H. inversion H as [[Hr' Hw]]. apply app_inv_head in Hw. subst t1.
      apply in_urlopen_requests in Hin. rewrite U in Hin. contradiction.
  - intros stack request_id logical url Hs Hr Hl Hu Ht.
    destruct (Sends stack request_id logical url Hs Hr Hl Hu Ht) as [-> ->].
    split; [reflexivity|]. eexists. reflexivity.
Qed.

(** ** One SUCCESS attempt, one FAILURE attempt at most (C7) *)

Lemma notification_requests (env : Env) (event : gmap string string)
    (context : Context) (w : World) (r : outcome unit) (w' : World) :
  notification env event context w = (r, w') ->
  exists t, w' = w ++ t
    /\ Forall notify_event t
    /\ (length (urlopen_requests t) <= 1)%nat
    /\ (In (EvLog ERROR MsgSuccessSendFailed) t -> urlopen_requests t = [])
    /\ (urlopen_requests t <> [] ->
        r = Ok tt /\ exists request, t = send_events env w request).
Proof.
  unfold notification, try_except. intros H.
  destruct (sendable env event) eqn:S.
  - destruct (send_response_sendable env context event "SUCCESS" None w S)
      as (request & E & _).
    rewrite E in H. inversion H; subst.
    exists (send_events env w request). split; [reflexivity|].
    unfold send_events.
    assert (Hout : notify_event (send_outcome_event env w request))
      by (unfold send_outcome_event; destruct (urlopen _ _ _); exact I).
    split; [repeat (constructor; try exact I); exact Hout|].
    assert (Hreq : urlopen_requests
                     [EvLog INFO (MsgResponse (req_data request));
                      EvLog INFO (MsgResponseRequest request);
                      EvLog INFO MsgSending; EvUrlopen request;
                      send_outcome_event env w request] = [request])
      by (unfold send_outcome_event; destruct (urlopen _ _ _); reflexivity).
    rewrite Hreq. simpl. split; [lia|].
    split; [|intros _; split; [reflexivity | eexists; reflexivity]].
    unfold send_outcome_event.
    destruct (urlopen env (n_urlopen w) request);
      intros [F|[F|[F|[F|[F|[]]]]]]; discriminate.
  - destruct (send_response_unsendable env context event "SUCCESS" None w S)
      as (e1 & t1 & E1 & F1 & U1).
    rewrite E1 in H.
    unfold bind, log, emit in H. simpl in H.
    destruct (send_response_unsendable env context event "FAILURE" None
                ((w ++ t1) ++ [EvLog ERROR MsgSuccessSendFailed]) S)
      as (e2 & t2 & E2 & F2 & U2).
    rewrite E2 in H. inversion H; subst.
    exists (t1 ++ [EvLog ERROR MsgSuccessSendFailed] ++ t2).
    rewrite !app_assoc. split; [reflexivity|].
    rewrite <- !app_assoc.
    assert (U : urlopen_requests (t1 ++ [EvLog ERROR MsgSuccessSendFailed] ++ t2) = [])
      by (rewrite !urlopen_requests_app, U1, U2; reflexivity).
    rewrite U. simpl.
    split; [apply Forall_app; split; [assumption | constructor; [exact I | assumption]]|].
    split; [lia|]. split; [reflexivity|]. intros C. contradiction.
Qed.

(** C7. A run of [lambda_handler] either stops during the creations and
    waits, or reaches the notification step, where [send_response] is
    called once with SUCCESS; when that call returns, its result is the
    handler's and nothing more is sent; when and only when it raises, the
    error is logged and [send_response] is called once with FAILURE, whose
    result, whatever it is, is the handler's.  The step puts at most one
    request on the wire. *)
Theorem notification_attempts (env : Env) (fuel : nat) (event : gmap string string)
    (context : Context) (w : World) (r : outcome unit) (w' : World) :
  lambda_handler env fuel event context w = (r, w') ->
  (r <> Ok tt /\ creations env fuel event context w = (r, w'))
  \/
  exists w5 r1 w6,
    creations env fuel event context w = (Ok tt, w5)
    /\ send_response env context event "SUCCESS" None w5 = (r1, w6)
    /\ (((forall e, r1 <> Raise e) /\ (r, w') = (r1, w6))
        \/ ((exists e, r1 = Raise e)
            /\ (r, w') = send_response env context event "FAILURE" None
                           (w6 ++ [EvLog ERROR MsgSuccessSendFailed])))
    /\ exists t, w' = w5 ++ t /\ (length (urlopen_requests t) <= 1)%nat.
Proof.
  intros H. rewrite lambda_handler_unfold, lambda_handler_then_split in H.
  unfold bind in H.
  destruct (creations env fuel event context w) as [[[]|e|] w5] eqn:E.
  - right.
    destruct (notification_requests _ _ _ _ _ _ H) as (t & Hw & _ & Hlen & _).
    unfold notification, try_except in H.
    destruct (send_response env context event "SUCCESS" None w5) as [r1 w6] eqn:E1.
    exists w5, r1, w6. split; [reflexivity|]. split; [exact E1|].
    split; [|eauto].
    destruct r1 as [[]|e1|].
    + left. split; [discriminate | congruence].
    + right. split; [eauto|]. rewrite <- H. reflexivity.
    + left. split; [discriminate | congruence].
  - left. inversion H; subst. split; [discriminate | reflexivity].
  - left. inversion H; subst. split; [discriminate | reflexivity].
Qed.

(** ** Errors of the PUT stay inside send_response (C10) *)

(** C10. Part one, for every call of [send_response]: an exception it
    raises is raised before any request is sent; once the request is sent
    the call returns normally, and what it logs last is the outcome of
    [urlopen], the caught error included.  Part two, for every run of
    [lambda_handler]: when the FAILURE fallback is taken (the error record
    of line 355 is in the trace), no request was ever sent, so a failed PUT
    is never what triggers it; and a run that sends a request returns
    normally right after logging the outcome of that one request. *)
Theorem put_errors_stay_inside (env : Env) (fuel : nat) (event : gmap string string)
    (context : Context) (status : string) (reason : option string)
    (w1 : World) (r1 : outcome unit) (w1' : World)
    (w : World) (r : outcome unit) (t : list Event) :
  send_response env context event status reason w1 = (r1, w1') ->
  lambda_handler env fuel event context w = (r, w ++ t) ->
  ((r1 = Ok tt /\ exists request, w1' = w1 ++ send_events env w1 request)
   \/ (exists e t1, r1 = Raise e /\ w1' = w1 ++ t1 /\ urlopen_requests t1 = []))
  /\ (In (EvLog ERROR MsgSuccessSendFailed) t -> urlopen_requests t = [])
  /\ (urlopen_requests t <> [] ->
      r = Ok tt
      /\ exists t5 request,
           creations env fuel event context w = (Ok tt, w ++ t5)
           /\ t = t5 ++ send_events env (w ++ t5) request).
Proof.
  intros Hsend Hrun. split.
  - destruct (sendable env event) eqn:S.
    + destruct (send_response_sendable env context event status reason w1 S)
        as (request & E & _).
      rewrite E in Hsend. inversion Hsend; subst. left. eauto.
    + destruct (send_response_unsendable env context event status reason w1 S)
        as (e & t1 & E & _ & U).
      rewrite E in Hsend. inversion Hsend; subst. right. eauto.
  - rewrite lambda_handler_unfold, lambda_handler_then_split in Hrun.
    unfold bind in Hrun.
    destruct (creations env fuel event context w) as [[[]|e|] w5] eqn:E;
      destruct (emits_creations env event context fuel _ _ _ E) as (t5 & -> & F5);
      destruct (creation_events_quiet env t5 F5) as [Q1 Q2].
    + destruct (notification_requests _ _ _ _ _ _ Hrun) as (tn & Hw & _ & _ & Hf & Hu).
      rewrite <- app_assoc in Hw. apply app_inv_head in Hw. subst t.
      rewrite urlopen_requests_app, Q1. simpl. split.
      * intros Hin. apply in_app_or in Hin. destruct Hin; [contradiction | auto].
      * intros Hne. destruct (Hu Hne) as (-> & request & ->). eauto.
    + inversion Hrun as [[Hr Hw]]. apply app_inv_head in Hw. subst t.
      rewrite Q1. split; [auto | intros C; contradiction].
    + inversion Hrun as [[Hr Hw]]. apply app_inv_head in Hw. subst t.
      rewrite Q1. split; [auto | intros C; contradiction].
Qed.

(** ** More fuel changes nothing *)

Lemma extends_refl {A} (m : M A) : extends m m.
Proof. intros w r w' H _. exact H. Qed.

Lemma extends_bind {A B} (m m' : M A) (k k' : A -> M B) :
  extends m m' -> (forall a, extends (k a) (k' a)) -> extends (bind m k) (bind m' k').
Proof.
  intros Hm Hk w r w' H Hr. unfold bind in *.
  destruct (m w) as [[a|e|] w1] eqn:E.
  - rewrite (Hm _ _ _ E) by discriminate. apply Hk; assumption.
  - rewrite (Hm _ _ _ E) by discriminate. exact H.
  - inversion H; subst. contradiction.
Qed.

Lemma extends_try_except {A} (m m' : M A) (h : exn -> M A) :
  extends m m' -> extends (try_except m h) (try_except m' h).
Proof.
  intros Hm w r w' H Hr. unfold try_except in *.
  destruct (m w) as [[a|e|] w1] eqn:E.
  - rewrite (Hm _ _ _ E) by discriminate. exact H.
  - rewrite (Hm _ _ _ E) by discriminate. exact H.
  - inversion H; subst. contradiction.
Qed.

Section Fuel.

Variable env : Env.

Lemma table_loop_done fuel table_name wait_seconds retry w :
  table_loop env fuel table_name wait_seconds true retry w = (Ok tt, w).
Proof. destruct fuel; reflexivity. Qed.

Lemma gsi_loop_done fuel table_name wait_seconds retry w :
  gsi_loop env fuel table_name wait_seconds true retry w = (Ok tt, w).
Proof. destruct fuel; reflexivity. Qed.

Lemma table_loop_extends fuel fuel' table_name wait_seconds table_active retry :
  (fuel <= fuel')%nat ->
  extends (table_loop env fuel table_name wait_seconds table_active retry)
          (table_loop env fuel' table_name wait_seconds table_active retry).
Proof.
  revert fuel' table_active retry.
  induction fuel as [|fuel IH]; intros fuel' table_active retry Hle.
  - intros w r w' H Hr. destruct table_active.
    + rewrite table_loop_done. exact H.
    + inversion H; subst. contradiction.
  - destruct fuel' as [|fuel']; [lia|].
    destruct table_active; [apply extends_refl|]. simpl.
    repeat (apply extends_bind; [apply extends_refl | intros ?]).
    apply IH. lia.
Qed.

Lemma gsi_loop_extends fuel fuel' table_name wait_seconds gsi_active retry :
  (fuel <= fuel')%nat ->
  extends (gsi_loop env fuel table_name wait_seconds gsi_active retry)
          (gsi_loop env fuel' table_name wait_seconds gsi_active retry).
Proof.
  revert fuel' gsi_active retry.
  induction fuel as [|fuel IH]; intros fuel' gsi_active retry Hle.
  - intros w r w' H Hr. destruct gsi_active.
    + rewrite gsi_loop_done. exact H.
    + inversion H; subst. contradiction.
  - destruct fuel' as [|fuel']; [lia|].
    destruct gsi_active; [apply extends_refl|]. simpl.
    repeat (apply extends_bind; [apply extends_refl | intros ?]).
    apply IH. lia.
Qed.

Lemma table_active_wait_extends fuel fuel' table_name wait_seconds :
  (fuel <= fuel')%nat ->
  extends (table_active_wait env fuel table_name wait_seconds)
          (table_active_wait env fuel' table_name wait_seconds).
Proof.
  intros Hle. unfold table_active_wait.
  apply extends_bind; [apply table_loop_extends, Hle | intros _].
  apply extends_bind; [apply extends_refl | intros _].
  apply extends_bind; [apply gsi_loop_extends, Hle | intros _].
  apply extends_refl.
Qed.

(** A wait that completes with some fuel completes, in the same way, with
    any larger amount. *)
Lemma table_active_wait_more_fuel fuel fuel' table_name wait_seconds w w' :
  (fuel <= fuel')%nat ->
  table_active_wait env fuel table_name wait_seconds w = (Ok tt, w') ->
  table_active_wait env fuel' table_name wait_seconds w = (Ok tt, w').
Proof.
  intros Hle H.
  apply (table_active_wait_extends fuel fuel' table_name wait_seconds Hle w _ _ H).
  discriminate.
Qed.

End Fuel.

(** ** The status checks (C2) *)

Section StatusChecks.

Variable env : Env.
Variable tablename : option string.

(** C2. [check_table_status] is written to fail open but does not.  When
    the response of [describe_table] has no status to read, the handler of
    lines 51-53 sets [table_active = True], but line 54 then logs
    [table_status], which was never assigned: the function raises
    [UnboundLocalError] instead of returning [True]. *)
Theorem check_table_status_raises_without_status (w : World) (response : jvalue)
    (e : exn) :
  describe_table env (n_describe w) tablename = inr response ->
  read_table_status response = inl e ->
  check_table_status env tablename w
  = (Raise unbound_table_status,
     w ++ [EvDescribeTable tablename; EvLog DEBUG MsgTableStatusNotReturned]).
Proof.
  intros Hd Hr. unfold check_table_status, client_describe_table.
  unfold bind at 1. rewrite Hd.
  unfold read_table_status in Hr. unfold try_except, bind, lift.
  destruct (py_getitem response "Table") as [e1|table]; simpl.
  - step. reflexivity.
  - rewrite Hr. simpl. step. reflexivity.
Qed.

(** [check_gsi_status] does fail open: whatever goes wrong inside its
    [try] block, it returns [True]. *)
Lemma check_gsi_status_fail_open (w : World) (response : jvalue) :
  describe_table env (n_describe w) tablename = inr response ->
  exists b t, check_gsi_status env tablename w = (Ok b, w ++ EvDescribeTable tablename :: t)
    /\ (In (EvLog DEBUG MsgFailedToGetGSIs) t -> b = true).
Proof.
  intros Hd. unfold check_gsi_status, client_describe_table.
  unfold bind at 1. rewrite Hd. unfold try_except, bind, lift, ret, raise, log, emit.
  destruct (py_getitem response "Table") as [e1|table]; simpl.
  { eexists _, [_]. rewrite <- app_assoc. simpl. split; [reflexivity | auto]. }
  destruct (py_contains _ table) as [e2|[]]; simpl.
  { eexists _, [_]. rewrite <- app_assoc. simpl. split; [reflexivity | auto]. }
  2:{ eexists _, [_]. rewrite <- app_assoc. simpl. split; [reflexivity | auto]. }
  destruct (py_getitem table _) as [e3|indexes]; simpl.
  { eexists _, [_]. rewrite <- app_assoc. simpl. split; [reflexivity | auto]. }
  destruct (py_iter indexes) as [e4|items]; simpl.
  { eexists _, [_]. rewrite <- app_assoc. simpl. split; [reflexivity | auto]. }
  destruct (map_exn _ items) as [e5|GSIs]; simpl.
  { eexists _, [_]. rewrite <- app_assoc. simpl. split; [reflexivity | auto]. }
  destruct (forallb _ GSIs); simpl;
    eexists _, []; (split; [reflexivity | intros []]).
Qed.

(** A status check calls [describe_table] once and otherwise only logs. *)
Lemma check_table_status_events (w : World) (r : outcome bool) (w' : World) :
  check_table_status env tablename w = (r, w') ->
  exists t, w' = w ++ EvDescribeTable tablename :: t
    /\ forall p, (forall lvl msg, p (EvLog lvl msg) = false) -> count p t = O.
Proof.
  unfold check_table_status, client_describe_table, read_local.
  unfold try_except, bind, lift, ret, raise, log, emit.
  intros H.
  destruct (describe_table env (n_describe w) tablename) as [e|response].
  { inversion H; subst. exists []. split; [reflexivity | auto]. }
  destruct (py_getitem response "Table") as [e1|table]; simpl in H.
  { inversion H; subst. eexists [_]. rewrite <- app_assoc. simpl.
    split; [reflexivity|]. intros p Hp. simpl. rewrite Hp. reflexivity. }
  destruct (py_getitem table "TableStatus") as [e2|table_status]; simpl in H.
  { inversion H; subst. eexists [_]. rewrite <- app_assoc. simpl.
    split; [reflexivity|]. intros p Hp. simpl. rewrite Hp. reflexivity. }
  destruct (is_str "ACTIVE" table_status); simpl in H;
    inversion H; subst; eexists [_]; rewrite <- app_assoc; simpl;
    (split; [reflexivity|]); intros p Hp; simpl; rewrite Hp; reflexivity.
Qed.

End StatusChecks.

(** ** The table-wait loop stops when the table is active (C9) *)

Section TableLoop.

Variable env : Env.
Variables (table_name : option string) (wait_seconds : Z).
Hypothesis wait_seconds_nonzero : wait_seconds <> 0.
Hypothesis pow_floor_nonneg : forall r, 0 <= pow_floor env wait_seconds r.


End TableLoop.


(** ** Creating an index twice (C5) *)

Section Twice.

Variable env : Env.
Variables (i : nat) (fn_name : string) (req : UpdateTableReq).
Variables (context : Context) (num_retries wait_seconds : Z).

Let body : M unit :=
  try_except
    (log INFO (MsgAddingGSI i) ;;
     client_update_table env req ;;
     log INFO (MsgGSIAdded i))%py
    (fun e => raise e).

Lemma wrapper_returns_value {A} (fn : M A) (iters : nat) (retry : Z)
    (w w1 : World) (v : A) :
  retry <= num_retries ->
  10000 < get_remaining_time_in_millis env (n_remaining w) ->
  fn (w ++ [EvRemainingTime]) = (Ok v, w1) ->
  wrapper_loop env (S iters) fn_name fn context num_retries wait_seconds retry w
  = (Ok (Some v), w1).
Proof.
  intros Hretry Hrem Hfn. simpl.
  apply Z.leb_le in Hretry. rewrite Hretry.
  unfold bind at 1. unfold context_get_remaining_time_in_millis.
  assert (Hgt : (get_remaining_time_in_millis env (n_remaining w) <=? 10000) = false)
    by (apply Z.leb_gt; lia).
  rewrite Hgt.
  unfold bind at 1. unfold attempt. rewrite Hfn. reflexivity.
Qed.

Lemma creator_creates (w : World) :
  0 <= num_retries ->
  10000 < get_remaining_time_in_millis env (n_remaining w) ->
  update_table env (n_update w) req = None ->
  function_retry env fn_name body context num_retries wait_seconds w
  = (Ok (Some tt), w ++ created_events i req).
Proof.
  intros Hn Hrem Hupd. unfold function_retry.
  destruct (Z.to_nat (num_retries + 1)) as [|iters] eqn:E; [lia|].
  rewrite (wrapper_returns_value body iters 0 w
             ((w ++ [EvRemainingTime])
                ++ [EvLog INFO (MsgAddingGSI i); EvUpdateTable req;
                    EvLog INFO (MsgGSIAdded i)]) tt); try assumption.
  - rewrite <- app_assoc. reflexivity.
  - apply (body_returns env i req).
    unfold n_update in *. rewrite count_app. simpl. rewrite Nat.add_0_r. exact Hupd.
Qed.

Lemma creator_finds_existing (w : World) (e : exn) :
  0 <= num_retries ->
  10000 < get_remaining_time_in_millis env (n_remaining w) ->
  update_table env (n_update w) req = Some e ->
  str_contains "already exists" (exn_str e) = true ->
  function_retry env fn_name body context num_retries wait_seconds w
  = (Ok None, w ++ existing_events i fn_name req num_retries wait_seconds e).
Proof.
  intros Hn Hrem Hupd He. unfold function_retry.
  destruct (Z.to_nat (num_retries + 1)) as [|iters] eqn:E; [lia|].
  rewrite (wrapper_already_exists env fn_name body context num_retries wait_seconds
             iters 0 w
             ((w ++ [EvRemainingTime])
                ++ [EvLog INFO (MsgAddingGSI i); EvUpdateTable req]) e);
    try assumption.
  - rewrite <- !app_assoc. reflexivity.
  - apply (body_raises env i req).
    unfold n_update in *. rewrite count_app. simpl. rewrite Nat.add_0_r. exact Hupd.
Qed.

(** A creation that succeeds, then the same creation again, answered
    'already exists': both calls return, nothing sleeps. *)
Lemma creator_twice (w : World) (e : exn) :
  0 <= num_retries ->
  10000 < get_remaining_time_in_millis env (n_remaining w) ->
  10000 < get_remaining_time_in_millis env (S (n_remaining w)) ->
  update_table env (n_update w) req = None ->
  update_table env (S (n_update w)) req = Some e ->
  str_contains "already exists" (exn_str e) = true ->
  (function_retry env fn_name body context num_retries wait_seconds ;;
   function_retry env fn_name body context num_retries wait_seconds)%py w
  = (Ok None,
     w ++ created_events i req
       ++ existing_events i fn_name req num_retries wait_seconds e).
Proof.
  intros Hn Hrem1 Hrem2 Hupd1 Hupd2 He.
  erewrite bind_ok by (apply creator_creates; assumption).
  rewrite creator_finds_existing with (e := e); try assumption.
  - rewrite <- app_assoc. reflexivity.
  - unfold n_remaining in *. rewrite count_app. simpl.
    rewrite Nat.add_1_r. exact Hrem2.
  - unfold n_update in *. rewrite count_app. simpl.
    rewrite Nat.add_1_r. exact Hupd2.
Qed.

End Twice.

(** C5. When an attempt of the wrapped function raises an error whose
    message contains 'already exists', the wrapper logs it and returns
    [None] at once: no sleep, no further attempt.  Hence creating an index
    that an earlier call has created (the second [update_table] is
    answered by such an error) returns normally, for either creator. *)
Theorem already_exists_ends_retries (env : Env) {A : Type} (fn_name : string)
    (fn : M A) (context : Context) (num_retries wait_seconds : Z)
    (iters : nat) (retry : Z) (w w1 : World) (e : exn) :
  retry <= num_retries ->
  10000 < get_remaining_time_in_millis env (n_remaining w) ->
  fn (w ++ [EvRemainingTime]) = (Raise e, w1) ->
  str_contains "already exists" (exn_str e) = true ->
  wrapper_loop env (S iters) fn_name fn context num_retries wait_seconds retry w
  = (Ok None, w1 ++ already_exists_events fn_name num_retries wait_seconds e retry)
  /\ (forall w0 : World,
        0 <= num_retries ->
        10000 < get_remaining_time_in_millis env (n_remaining w0) ->
        10000 < get_remaining_time_in_millis env (S (n_remaining w0)) ->
        (update_table env (n_update w0) (gsi_1_request env) = None ->
         update_table env (S (n_update w0)) (gsi_1_request env) = Some e ->
         (create_gsi_1 env context num_retries wait_seconds ;;
          create_gsi_1 env context num_retries wait_seconds)%py w0
         = (Ok None,
            w0 ++ created_events 1 (gsi_1_request env)
               ++ existing_events 1 "create_gsi_1" (gsi_1_request env)
                    num_retries wait_seconds e))
        /\ (update_table env (n_update w0) (gsi_2_request env) = None ->
            update_table env (S (n_update w0)) (gsi_2_request env) = Some e ->
            (create_gsi_2 env context num_retries wait_seconds ;;
             create_gsi_2 env context num_retries wait_seconds)%py w0
            = (Ok None,
               w0 ++ created_events 2 (gsi_2_request env)
                  ++ existing_events 2 "create_gsi_2" (gsi_2_request env)
                       num_retries wait_seconds e))).
Proof.
  intros Hretry Hrem Hfn He. split.
  - apply wrapper_already_exists; assumption.
  - intros w0 Hn Hr1 Hr2. split; intros Hu1 Hu2.
    + apply (creator_twice env 1 "create_gsi_1" (gsi_1_request env)); assumption.
    + apply (creator_twice env 2 "create_gsi_2" (gsi_2_request env)); assumption.
Qed.

(** ** Exhausted retries are silent (C1) *)

Lemma completes_bind {A B} (n1 n2 n : nat) (m : nat -> M A) (k : A -> nat -> M B) :
  completes n1 m ->
  (forall a, completes n2 (k a)) ->
  n = (n1 + n2)%nat ->
  completes n (fun fuel => bind (m fuel) (fun a => k a fuel)).
Proof.
  intros Hm Hk -> w.
  destruct (Hm w) as (f1 & t1 & a & R1 & U1 & Q1).
  destruct (Hk a (w ++ t1)) as (f2 & t2 & b & R2 & U2 & Q2).
  exists (Nat.max f1 f2), (t1 ++ t2), b. split; [|split].
  - intros fuel Hf.
    rewrite (bind_ok _ _ _ _ _ (R1 fuel ltac:(lia))).
    rewrite (R2 fuel ltac:(lia)), app_assoc. reflexivity.
  - rewrite count_app. lia.
  - rewrite urlopen_requests_app, Q1, Q2. reflexivity.
Qed.

Lemma completes_log (lvl : LogLevel) (msg : LogMsg) :
  completes 0 (fun _ => log lvl msg).
Proof.
  intros w. exists O, [EvLog lvl msg], tt. split; [|split]; reflexivity.
Qed.

Lemma completes_ret {A} (a : A) : completes 0 (fun _ => ret a).
Proof.
  intros w. exists O, [], a. rewrite app_nil_r. split; [|split]; reflexivity.
Qed.

Lemma poll_events_quiet (t : list Event) :
  Forall poll_event t -> count is_update t = O /\ urlopen_requests t = [].
Proof.
  induction 1 as [|e t He Ht [IH1 IH2]]; simpl; [auto|].
  destruct e; simpl in *; try contradiction; auto.
Qed.

Lemma failed_attempts_quiet i fn_name req num_retries wait_seconds errors n :
  forall call retry,
    count is_update
      (failed_attempts i fn_name req num_retries wait_seconds errors call retry n) = n
    /\ urlopen_requests
         (failed_attempts i fn_name req num_retries wait_seconds errors call retry n) = [].
Proof.
  induction n as [|n IH]; intros call retry; simpl; [auto|].
  destruct (IH (S call) (retry + 1)) as [IH1 IH2].
  destruct (retry + 1 >? num_retries); simpl; rewrite IH1, IH2; auto.
Qed.

Section SilentDegrade.

Variable env : Env.
Variable errors : nat -> exn.
Hypothesis time_left : forall k, 10000 < get_remaining_time_in_millis env k.
Hypothesis update_fails : forall k req, update_table env k req = Some (errors k).
Hypothesis unrelated :
  forall k, str_contains "already exists" (exn_str (errors k)) = false.

Lemma creator_exhausts (i : nat) (fn_name : string) (req : UpdateTableReq)
    (context : Context) (num_retries wait_seconds : Z) (w : World) :
  0 <= wait_seconds ->
  function_retry env fn_name
    (try_except
       (log INFO (MsgAddingGSI i) ;;
        client_update_table env req ;;
        log INFO (MsgGSIAdded i))%py
       (fun e => raise e))
    context num_retries wait_seconds w
  = (Ok None,
     w ++ failed_attempts i fn_name req num_retries wait_seconds errors
            (n_update w) 0 (Z.to_nat (num_retries + 1))).
Proof.
  intros Hws. unfold function_retry.
  destruct (Z_le_gt_dec 0 (num_retries + 1)) as [Hn|Hn].
  - apply wrapper_loop_exhausts; auto. lia.
  - assert (E : Z.to_nat (num_retries + 1) = O) by lia.
    rewrite E. simpl.
    assert (L : (0 <=? num_retries) = false) by (apply Z.leb_gt; lia).
    rewrite L, app_nil_r. reflexivity.
Qed.

Lemma completes_creator (i : nat) (fn_name : string) (req : UpdateTableReq)
    (context : Context) :
  completes 6
    (fun _ =>
       function_retry env fn_name
         (try_except
            (log INFO (MsgAddingGSI i) ;;
             client_update_table env req ;;
             log INFO (MsgGSIAdded i))%py
            (fun e => raise e))
         context 5 30).
Proof.
  intros w. eexists O, _, None. split; [|split].
  - intros fuel _. apply creator_exhausts. lia.
  - apply (failed_attempts_quiet i fn_name req 5 30 errors 6).
  - apply (failed_attempts_quiet i fn_name req 5 30 errors 6).
Qed.

Hypothesis waits_complete :
  forall w, exists fuel w',
    table_active_wait env fuel (TABLE_NAME env) 15 w = (Ok tt, w').

Lemma completes_wait :
  completes 0 (fun fuel => table_active_wait env fuel (TABLE_NAME env) 15).
Proof.
  intros w. destruct (waits_complete w) as (fuel0 & w' & R).
  destruct (emits_table_active_wait env _ _ _ _ _ _ R) as (t & -> & F).
  destruct (poll_events_quiet t F) as [U Q].
  exists fuel0, t, tt. split; [|auto].
  intros fuel Hf. eapply table_active_wait_more_fuel; eassumption.
Qed.

Lemma completes_creations (event : gmap string string) (context : Context) :
  completes 12 (fun fuel => creations env fuel event context).
Proof.
  unfold creations, lambda_handler_then.
  eapply completes_bind with (m := fun _ => log _ _); [apply completes_log | intros _ |].
  eapply completes_bind with (m := fun _ => log _ _); [apply completes_log | intros _ |].
  eapply completes_bind; [apply completes_wait | intros _ |].
  eapply completes_bind with (m := fun _ => log _ _); [apply completes_log | intros _ |].
  eapply completes_bind with (m := fun _ => create_gsi_1 _ _ _ _);
    [apply completes_creator | intros _ |].
  eapply completes_bind; [apply completes_wait | intros _ |].
  eapply completes_bind with (m := fun _ => log _ _); [apply completes_log | intros _ |].
  eapply completes_bind with (m := fun _ => create_gsi_2 _ _ _ _);
    [apply completes_creator | intros _ |].
  eapply completes_bind with (k := fun _ _ => ret tt);
    [apply completes_wait | intros _; apply completes_ret |].
  all: reflexivity.
Qed.

End SilentDegrade.

(** C1. Suppose every [update_table] call raises an error that does not
    say 'already exists', the context always reports more than 10000 ms,
    and the readiness waits complete.  Then each creator, for any
    [num_retries] and any non-negative [wait_seconds], makes its
    [num_retries + 1] attempts, sleeping [wait_seconds] after each, logs
    the failure and returns [None] without raising; and [lambda_handler],
    given enough fuel, returns normally after twelve failed [update_table]
    calls and exactly one request to the callback URL, with status
    SUCCESS. *)
Theorem exhausted_retries_are_silent (env : Env) (errors : nat -> exn)
    (event : gmap string string) (context : Context)
    (stack request_id logical url : string) (w : World) :
  (forall k, 10000 < get_remaining_time_in_millis env k) ->
  (forall k req, update_table env k req = Some (errors k)) ->
  (forall k, str_contains "already exists" (exn_str (errors k)) = false) ->
  (forall w1, exists fuel w2,
     table_active_wait env fuel (TABLE_NAME env) 15 w1 = (Ok tt, w2)) ->
  event !! "StackId" = Some stack ->
  event !! "RequestId" = Some request_id ->
  event !! "LogicalResourceId" = Some logical ->
  event !! "ResponseURL" = Some url ->
  url_has_type env url = true ->
  (forall (num_retries wait_seconds : Z) (w1 : World),
     0 <= wait_seconds ->
     create_gsi_1 env context num_retries wait_seconds w1
     = (Ok None,
        w1 ++ failed_attempts 1 "create_gsi_1" (gsi_1_request env)
                num_retries wait_seconds errors (n_update w1) 0
                (Z.to_nat (num_retries + 1)))
     /\ create_gsi_2 env context num_retries wait_seconds w1
        = (Ok None,
           w1 ++ failed_attempts 2 "create_gsi_2" (gsi_2_request env)
                   num_retries wait_seconds errors (n_update w1) 0
                   (Z.to_nat (num_retries + 1))))
  /\ exists (fuel0 : nat) (t : list Event),
       count is_update t = 12%nat
       /\ urlopen_requests t = []
       /\ forall fuel, (fuel0 <= fuel)%nat ->
            lambda_handler env fuel event context w
            = (Ok tt,
               (w ++ t)
               ++ send_events env (w ++ t)
                    (notification_request env context "SUCCESS"
                       (default_reason context) stack request_id logical url)).
Proof.
  intros Hrem Hupd Herr Hwait Hs Hr Hl Hu Ht. split.
  - intros num_retries wait_seconds w1 Hws. split.
    + apply (creator_exhausts env errors Hrem Hupd Herr 1); assumption.
    + apply (creator_exhausts env errors Hrem Hupd Herr 2); assumption.
  - destruct (completes_creations env errors Hrem Hupd Herr Hwait event context w)
      as (fuel0 & t & [] & R & U & Q).
    exists fuel0, t. split; [exact U|]. split; [exact Q|].
    intros fuel Hf.
    rewrite lambda_handler_unfold, lambda_handler_then_split.
    rewrite (bind_ok _ _ _ _ _ (R fuel Hf)).
    unfold notification, try_except.
    rewrite (send_response_sends env context event "SUCCESS" None (w ++ t)
               stack request_id logical url Hs Hr Hl Hu Ht).
    reflexivity.
Qed.

(** ** The handler runs its steps one after the other (C8) *)

Lemma bind_inv {A B} (m : M A) (k : A -> M B) (w : World) (r : outcome B) (w' : World) :
  bind m k w = (r, w') ->
  (exists a w1, m w = (Ok a, w1) /\ k a w1 = (r, w'))
  \/ (exists e, m w = (Raise e, w') /\ r = Raise e)
  \/ (m w = (OutOfFuel, w') /\ r = OutOfFuel).
Proof.
  unfold bind. intros H. destruct (m w) as [[a|e|] w1].
  - left. eauto.
  - right. left. inversion H; subst. eauto.
  - right. right. inversion H; subst. eauto.
Qed.

Lemma creation_step_1_run (env : Env) (context : Context) (w : World)
    (r : outcome (option unit)) (w' : World) :
  create_gsi_1 env context 5 30 (w ++ [EvLog INFO (MsgCreatingGSI 1 (TABLE_NAME env))])
  = (r, w') ->
  creation_step_1 env context w = (r, w')
  /\ exists t, w' = w ++ t /\ t <> []
       /\ Forall (create_event 1 "create_gsi_1" (gsi_1_request env)) t.
Proof.
  intros H. split.
  - unfold creation_step_1, bind, log, emit. exact H.
  - destruct (emits_create_gsi_1 env context 5 30 _ _ _ H) as (t & -> & F).
    exists (EvLog INFO (MsgCreatingGSI 1 (TABLE_NAME env)) :: t).
    rewrite app_cons_assoc. split; [reflexivity|]. split; [discriminate|].
    constructor; [reflexivity | exact F].
Qed.

Lemma creation_step_2_run (env : Env) (context : Context) (w : World)
    (r : outcome (option unit)) (w' : World) :
  create_gsi_2 env context 5 30 (w ++ [EvLog INFO (MsgCreatingGSI 2 (TABLE_NAME env))])
  = (r, w') ->
  creation_step_2 env context w = (r, w')
  /\ exists t, w' = w ++ t /\ t <> []
       /\ Forall (create_event 2 "create_gsi_2" (gsi_2_request env)) t.
Proof.
  intros H. split.
  - unfold creation_step_2, bind, log, emit. exact H.
  - destruct (emits_create_gsi_2 env context 5 30 _ _ _ H) as (t & -> & F).
    exists (EvLog INFO (MsgCreatingGSI 2 (TABLE_NAME env)) :: t).
    rewrite app_cons_assoc. split; [reflexivity|]. split; [discriminate|].
    constructor; [reflexivity | exact F].
Qed.

(** Closes a branch of the case analysis below once the six parts of the
    trace are given. *)
Ltac close_phase :=
  cbv zeta; rewrite ?app_nil_r;
  repeat match goal with
         | |- _ /\ _ => split
         | |- Forall _ [] => constructor
         | |- [] <> [] -> _ => let C := fresh in intros C; exfalso; apply C; reflexivity
         | |- _ <> [] -> _ => intros _
         | |- exists _, _ => eexists
         end;
  try reflexivity; try eassumption;
  repeat (cbn [continues];
          match goal with
          | |- exists _, _ => eexists; split; [eassumption|]
          | |- _ = _ /\ _ = _ => split; reflexivity
          | |- notification _ _ _ _ = _ => eassumption
          end).

(** C8. Every run of [lambda_handler] executes its steps one after the
    other, in the order: readiness wait, creation of index 1, readiness
    wait, creation of index 2, readiness wait, notification.  After the two
    opening log records, the first wait is run; each further step is run
    exactly when the step before it has returned normally, and from the
    world that step left; when a step does not return, the run ends there
    with that step's outcome; the result of a run that gets through is the
    result of the notification step.  The trace is accordingly made of six
    consecutive parts, each holding the events of its step only, and a part
    is non-empty only if every earlier step has returned: no request for
    index 2 is sent before the second wait has returned, and all requests
    for index 1 come before it. *)
Theorem lambda_handler_is_sequential (env : Env) (fuel : nat)
    (event : gmap string string) (context : Context)
    (w : World) (r : outcome unit) (w' : World) :
  lambda_handler env fuel event context w = (r, w') ->
  exists wait1 create1 wait2 create2 wait3 notify : list Event,
    let w0 := w ++ [EvLog DEBUG (MsgEvent event); EvLog DEBUG (MsgContext context)] in
    let w1 := w0 ++ wait1 in
    let w2 := w1 ++ create1 in
    let w3 := w2 ++ wait2 in
    let w4 := w3 ++ create2 in
    let w5 := w4 ++ wait3 in
    let waited1 := table_active_wait env fuel (TABLE_NAME env) 15 w0 = (Ok tt, w1) in
    let created1 := exists v, creation_step_1 env context w1 = (Ok v, w2) in
    let waited2 := table_active_wait env fuel (TABLE_NAME env) 15 w2 = (Ok tt, w3) in
    let created2 := exists v, creation_step_2 env context w3 = (Ok v, w4) in
    let waited3 := table_active_wait env fuel (TABLE_NAME env) 15 w4 = (Ok tt, w5) in
    w' = w5 ++ notify
    /\ Forall poll_event wait1
    /\ Forall (create_event 1 "create_gsi_1" (gsi_1_request env)) create1
    /\ Forall poll_event wait2
    /\ Forall (create_event 2 "create_gsi_2" (gsi_2_request env)) create2
    /\ Forall poll_event wait3
    /\ Forall notify_event notify
    /\ (create1 <> [] -> waited1)
    /\ (wait2 <> [] -> waited1 /\ created1)
    /\ (create2 <> [] -> waited1 /\ created1 /\ waited2)
    /\ (wait3 <> [] -> waited1 /\ created1 /\ waited2 /\ created2)
    /\ (notify <> [] -> waited1 /\ created1 /\ waited2 /\ created2 /\ waited3)
    /\ (exists x1,
          table_active_wait env fuel (TABLE_NAME env) 15 w0 = (x1, w1)
          /\ continues x1 w1 r w'
               (exists x2,
                  creation_step_1 env context w1 = (x2, w2)
                  /\ continues x2 w2 r w'
                       (exists x3,
                          table_active_wait env fuel (TABLE_NAME env) 15 w2 = (x3, w3)
                          /\ continues x3 w3 r w'
                               (exists x4,
                                  creation_step_2 env context w3 = (x4, w4)
                                  /\ continues x4 w4 r w'
                                       (exists x5,
                                          table_active_wait env fuel (TABLE_NAME env) 15 w4
                                          = (x5, w5)
                                          /\ continues x5 w5 r w'
                                               (notification env event context w5
                                                = (r, w'))))))).
Proof.
  intros H. unfold lambda_handler in H.
  rewrite (bind_ok (log _ _) _ w _ tt eq_refl) in H.
  rewrite (bind_ok (log _ _) _ _ _ tt eq_refl) in H.
  rewrite app_cons_assoc in H.
  (* first wait *)
  apply bind_inv in H.
  destruct H as [([] & w1 & E1 & H) | [(e & E1 & ->) | (E1 & ->)]];
    destruct (emits_table_active_wait env _ _ _ _ _ _ E1) as (t1 & -> & F1);
    [| exists t1, [], [], [], [], []; close_phase ..].
  (* first creation *)
  rewrite (bind_ok (log _ _) _ _ _ tt eq_refl) in H.
  apply bind_inv in H.
  destruct H as [(v1 & w2 & E2 & H) | [(e & E2 & ->) | (E2 & ->)]];
    destruct (creation_step_1_run env context _ _ _ E2) as (S2 & c1 & -> & N2 & F2);
    [| exists t1, c1, [], [], [], []; close_phase ..].
  (* second wait *)
  apply bind_inv in H.
  destruct H as [([] & w3 & E3 & H) | [(e & E3 & ->) | (E3 & ->)]];
    destruct (emits_table_active_wait env _ _ _ _ _ _ E3) as (t2 & -> & F3);
    [| exists t1, c1, t2, [], [], []; close_phase ..].
  (* second creation *)
  rewrite (bind_ok (log _ _) _ _ _ tt eq_refl) in H.
  apply bind_inv in H.
  destruct H as [(v2 & w4 & E4 & H) | [(e & E4 & ->) | (E4 & ->)]];
    destruct (creation_step_2_run env context _ _ _ E4) as (S4 & c2 & -> & N4 & F4);
    [| exists t1, c1, t2, c2, [], []; close_phase ..].
  (* third wait *)
  apply bind_inv in H.
  destruct H as [([] & w5 & E5 & H) | [(e & E5 & ->) | (E5 & ->)]];
    destruct (emits_table_active_wait env _ _ _ _ _ _ E5) as (t3 & -> & F5);
    [| exists t1, c1, t2, c2, t3, []; close_phase ..].
  (* notification *)
  match type of H with
  | _ ?w5 = _ => change (notification env event context w5 = (r, w')) in H
  end.
  destruct (notification_requests env event context _ _ _ H) as (tn & -> & Fn & _).
  exists t1, c1, t2, c2, t3, tn. close_phase.
Qed.

(** ** The retry count of the poller *)

(** The count handed to the power is never above [wait_seconds], and is
    the count itself up to there.  The wait computed from it is a
    floating-point power, [pow_floor], about which the environment says
    nothing. *)
Lemma cap_retry_le (wait_seconds retry : Z) : cap_retry wait_seconds retry <= wait_seconds.
Proof.
  unfold cap_retry. destruct (retry >? wait_seconds) eqn:E; [lia|].
  rewrite Z.gtb_ltb in E. apply Z.ltb_ge in E. exact E.
Qed.

Lemma cap_retry_below (wait_seconds retry : Z) :
  retry <= wait_seconds -> cap_retry wait_seconds retry = retry.
Proof.
  intros H. unfold cap_retry.
  destruct (retry >? wait_seconds) eqn:E; [|reflexivity].
  rewrite Z.gtb_ltb in E. apply Z.ltb_lt in E. lia.
Qed.

(** * The theorems on concrete runs *)

Module Runs.
Import Sample Scenario.

Lemma root_search_nonneg (n : nat) (b r : Z) : 0 <= root_search n b r.
Proof.
  induction n as [|n IH]; [simpl; lia|].
  cbn [root_search]. destruct (_ <=? _); lia.
Qed.


(** C2 on a run: the empty response makes [check_table_status] raise. *)
Lemma check_table_status_raises_without_status_witness :
  check_table_status env_no_status table []
  = (Raise unbound_table_status,
     [EvDescribeTable table; EvLog DEBUG MsgTableStatusNotReturned]).
Proof.
  apply (check_table_status_raises_without_status env_no_status table []
           (JDict []) (KeyError "Table")).
  - reflexivity.
  - reflexivity.
Defined.

(** C5 on a run: the index is created, then created again. *)
Lemma already_exists_ends_retries_witness :
  (create_gsi_1 env_again context 5 30 ;; create_gsi_1 env_again context 5 30)%py []
  = (Ok None,
     created_events 1 (gsi_1_request env_again)
     ++ existing_events 1 "create_gsi_1" (gsi_1_request env_again) 5 30 already_exists).
Proof.
  refine (proj1 (proj2 (already_exists_ends_retries env_again "create_gsi_1"
            (create_gsi_1_body env_again) context 5 30 5 0
            (created_events 1 (gsi_1_request env_again))
            ((created_events 1 (gsi_1_request env_again) ++ [EvRemainingTime])
               ++ [EvLog INFO (MsgAddingGSI 1); EvUpdateTable (gsi_1_request env_again)])
            already_exists _ _ _ _) [] _ _ _) _ _).
  - lia.
  - simpl. lia.
  - reflexivity.
  - reflexivity.
  - lia.
  - simpl. lia.
  - simpl. lia.
  - reflexivity.
  - reflexivity.
Defined.

(** C6 on a run: the request sent for the sample event. *)
Lemma send_response_payload_witness :
  let sent := send_response env_ok context event "SUCCESS" None [] in
  (forall request,
     In (EvUrlopen request) (snd sent) ->
     exists stack request_id logical url,
       event !! "StackId" = Some stack
       /\ event !! "RequestId" = Some request_id
       /\ event !! "LogicalResourceId" = Some logical
       /\ event !! "ResponseURL" = Some url
       /\ request
          = notification_request env_ok context "SUCCESS" (default_reason context)
              stack request_id logical url
       /\ urlopen_requests (snd sent) = [request])
  /\ fst sent = Ok tt
  /\ exists outcome,
       snd sent
       = [EvLog INFO (MsgResponse (req_data (success_request env_ok)));
          EvLog INFO (MsgResponseRequest (success_request env_ok));
          EvLog INFO MsgSending;
          EvUrlopen (success_request env_ok);
          outcome].
Proof.
  intros sent.
  destruct (send_response_payload env_ok context event "SUCCESS" None []
              (fst sent) (snd sent)) as [Hany Hsample].
  - vm_compute. reflexivity.
  - split; [exact Hany|].
    exact (Hsample stack_id "req-0001" "AddGsi" callback_url
             eq_refl eq_refl eq_refl eq_refl eq_refl).
Defined.


Lemma env_throttled_waits (w1 : World) :
  exists fuel w2,
    table_active_wait env_throttled fuel (TABLE_NAME env_throttled) 15 w1 = (Ok tt, w2).
Proof. exists 1%nat. eexists. reflexivity. Qed.

(** C1 on a run: both creations fail six times, SUCCESS is sent. *)
Lemma exhausted_retries_are_silent_witness :
  create_gsi_1 env_throttled context 5 30 []
  = (Ok None,
     failed_attempts 1 "create_gsi_1" (gsi_1_request env_throttled) 5 30
       (fun _ => throttled) 0 0 6)
  /\ exists (fuel0 : nat) (t : list Event),
       count is_update t = 12%nat
       /\ urlopen_requests t = []
       /\ forall fuel, (fuel0 <= fuel)%nat ->
            lambda_handler env_throttled fuel event context []
            = (Ok tt, t ++ send_events env_throttled t (success_request env_throttled)).
Proof.
  destruct (exhausted_retries_are_silent env_throttled (fun _ => throttled)
              event context stack_id "req-0001" "AddGsi" callback_url [])
    as [Hcreators Hhandler].
  - intros k. simpl. lia.
  - intros k req. reflexivity.
  - intros k. reflexivity.
  - exact env_throttled_waits.
  - reflexivity.
  - reflexivity.
  - reflexivity.
  - reflexivity.
  - reflexivity.
  - split.
    + exact (proj1 (Hcreators 5 30 [] ltac:(lia))).
    + exact Hhandler.
Defined.

(** C7 on a run: everything succeeds, one SUCCESS attempt. *)
Lemma notification_attempts_witness :
  let run := lambda_handler env_ok 1 event context [] in
  (fst run <> Ok tt /\ creations env_ok 1 event context [] = (fst run, snd run))
  \/
  exists w5 r1 w6,
    creations env_ok 1 event context [] = (Ok tt, w5)
    /\ send_response env_ok context event "SUCCESS" None w5 = (r1, w6)
    /\ (((forall e, r1 <> Raise e) /\ (fst run, snd run) = (r1, w6))
        \/ ((exists e, r1 = Raise e)
            /\ (fst run, snd run)
               = send_response env_ok context event "FAILURE" None
                   (w6 ++ [EvLog ERROR MsgSuccessSendFailed])))
    /\ exists t, snd run = w5 ++ t /\ (length (urlopen_requests t) <= 1)%nat.
Proof.
  intros run.
  apply (notification_attempts env_ok 1 event context [] (fst run) (snd run)).
  vm_compute. reflexivity.
Defined.

(** C8 on a run: the phases of a run in which everything succeeds. *)
Lemma lambda_handler_is_sequential_witness :
  let run := lambda_handler env_ok 1 event context [] in
  exists wait1 create1 wait2 create2 wait3 notify : list Event,
    let w0 := [EvLog DEBUG (MsgEvent event); EvLog DEBUG (MsgContext context)] in
    let w1 := w0 ++ wait1 in
    let w2 := w1 ++ create1 in
    let w3 := w2 ++ wait2 in
    let w4 := w3 ++ create2 in
    let w5 := w4 ++ wait3 in
    let waited1 := table_active_wait env_ok 1 (TABLE_NAME env_ok) 15 w0 = (Ok tt, w1) in
    let created1 := exists v, creation_step_1 env_ok context w1 = (Ok v, w2) in
    let waited2 := table_active_wait env_ok 1 (TABLE_NAME env_ok) 15 w2 = (Ok tt, w3) in
    let created2 := exists v, creation_step_2 env_ok context w3 = (Ok v, w4) in
    let waited3 := table_active_wait env_ok 1 (TABLE_NAME env_ok) 15 w4 = (Ok tt, w5) in
    snd run = w5 ++ notify
    /\ Forall poll_event wait1
    /\ Forall (create_event 1 "create_gsi_1" (gsi_1_request env_ok)) create1
    /\ Forall poll_event wait2
    /\ Forall (create_event 2 "create_gsi_2" (gsi_2_request env_ok)) create2
    /\ Forall poll_event wait3
    /\ Forall notify_event notify
    /\ (create1 <> [] -> waited1)
    /\ (wait2 <> [] -> waited1 /\ created1)
    /\ (create2 <> [] -> waited1 /\ created1 /\ waited2)
    /\ (wait3 <> [] -> waited1 /\ created1 /\ waited2 /\ created2)
    /\ (notify <> [] -> waited1 /\ created1 /\ waited2 /\ created2 /\ waited3)
    /\ (exists x1,
          table_active_wait env_ok 1 (TABLE_NAME env_ok) 15 w0 = (x1, w1)
          /\ continues x1 w1 (fst run) (snd run)
               (exists x2,
                  creation_step_1 env_ok context w1 = (x2, w2)
                  /\ continues x2 w2 (fst run) (snd run)
                       (exists x3,
                          table_active_wait env_ok 1 (TABLE_NAME env_ok) 15 w2 = (x3, w3)
                          /\ continues x3 w3 (fst run) (snd run)
                               (exists x4,
                                  creation_step_2 env_ok context w3 = (x4, w4)
                                  /\ continues x4 w4 (fst run) (snd run)
                                       (exists x5,
                                          table_active_wait env_ok 1 (TABLE_NAME env_ok) 15 w4
                                          = (x5, w5)
                                          /\ continues x5 w5 (fst run) (snd run)
                                               (notification env_ok event context w5
                                                = (fst run, snd run))))))).
Proof.
  intros run.
  apply (lambda_handler_is_sequential env_ok 1 event context [] (fst run) (snd run)).
  vm_compute. reflexivity.
Defined.

(** C10 on a run: the callback URL is unreachable; the error is logged
    and the handler returns without the FAILURE fallback. *)
Lemma put_errors_stay_inside_witness :
  let sent := send_response env_unreachable context event "SUCCESS" None [] in
  let run := lambda_handler env_unreachable 1 event context [] in
  ((fst sent = Ok tt
    /\ exists request, snd sent = [] ++ send_events env_unreachable [] request)
   \/ (exists e t1, fst sent = Raise e /\ snd sent = [] ++ t1 /\ urlopen_requests t1 = []))
  /\ (In (EvLog ERROR MsgSuccessSendFailed) (snd run) -> urlopen_requests (snd run) = [])
  /\ (urlopen_requests (snd run) <> [] ->
      fst run = Ok tt
      /\ exists t5 request,
           creations env_unreachable 1 event context [] = (Ok tt, [] ++ t5)
           /\ snd run = t5 ++ send_events env_unreachable ([] ++ t5) request).
Proof.
  intros sent run.
  apply (put_errors_stay_inside env_unreachable 1 event context "SUCCESS" None
           [] (fst sent) (snd sent) [] (fst run) (snd run)).
  - vm_compute. reflexivity.
  - vm_compute. reflexivity.
Defined.

End Runs.

(** * Further properties of the module *)

(** ** The status checks on a response *)

Section StatusReads.

Variable env : Env.
Variable tablename : option string.

(** X1. When the status can be read, [check_table_status] returns whether
    it is the string ['ACTIVE'], exactly: any other value, another
    spelling or a value that is not a string gives [False]. *)
Theorem check_table_status_reads_status (w : World) (response status : jvalue) :
  describe_table env (n_describe w) tablename = inr response ->
  read_table_status response = inr status ->
  check_table_status env tablename w
  = (Ok (is_str "ACTIVE" status),
     w ++ [EvDescribeTable tablename; EvLog DEBUG (MsgValue status)])
  /\ (is_str "ACTIVE" status = true <-> status = JStr "ACTIVE").
Proof.
  intros Hd Hr. split.
  - unfold check_table_status, client_describe_table.
    unfold bind at 1. rewrite Hd.
    unfold read_table_status in Hr. unfold try_except, bind, lift.
    destruct (py_getitem response "Table") as [e1|table]; [discriminate|]. simpl.
    rewrite Hr. simpl.
    destruct (is_str "ACTIVE" status); step; reflexivity.
  - destruct status; simpl; split; intros H; try discriminate.
    + apply String.eqb_eq in H. subst. reflexivity.
    + inversion H. apply String.eqb_refl.
Qed.

(** X2. On a response whose table entry is a dictionary,
    [check_gsi_status] returns [True] when there is no
    ['GlobalSecondaryIndexes'] key; when the key holds a list of entries
    that all carry an ['IndexStatus'], it returns whether every one of them
    is ['ACTIVE'] (so [True] for the empty list, [False] as soon as one
    index is in another state). *)
Theorem check_gsi_status_all_active (w : World) (response : jvalue)
    (d : list (string * jvalue)) :
  describe_table env (n_describe w) tablename = inr response ->
  py_getitem response "Table" = inr (JDict d) ->
  (assoc_lookup "GlobalSecondaryIndexes" d = None ->
   check_gsi_status env tablename w
   = (Ok true, w ++ [EvDescribeTable tablename; EvLog INFO MsgNoGSIs]))
  /\ (forall items statuses,
        assoc_lookup "GlobalSecondaryIndexes" d = Some (JList items) ->
        map_exn (fun n => py_getitem n "IndexStatus") items = inr statuses ->
        check_gsi_status env tablename w
        = (Ok (forallb (is_str "ACTIVE") statuses), w ++ [EvDescribeTable tablename])).
Proof.
  intros Hd Ht. split.
  - intros Hnone. unfold check_gsi_status, client_describe_table.
    unfold bind at 1. rewrite Hd.
    unfold try_except, bind, lift. rewrite Ht. simpl. rewrite Hnone. step. reflexivity.
  - intros items statuses Hsome Hmap. unfold check_gsi_status, client_describe_table.
    unfold bind at 1. rewrite Hd.
    unfold try_except, bind, lift. rewrite Ht. simpl. rewrite Hsome. simpl.
    rewrite Hmap. simpl.
    destruct (forallb (is_str "ACTIVE") statuses); reflexivity.
Qed.

(** X3. [check_gsi_status] fails open.  Once [describe_table] has
    answered it never raises; and it returns [True] when the response has
    no table entry, and also when one index entry carries no
    ['IndexStatus'], whatever the state of the other indexes. *)
Theorem check_gsi_status_fails_open (w : World) (response : jvalue) :
  describe_table env (n_describe w) tablename = inr response ->
  (exists b t,
     check_gsi_status env tablename w = (Ok b, w ++ EvDescribeTable tablename :: t))
  /\ (forall e,
        py_getitem response "Table" = inl e ->
        check_gsi_status env tablename w
        = (Ok true, w ++ [EvDescribeTable tablename; EvLog DEBUG MsgFailedToGetGSIs]))
  /\ (forall d items e,
        py_getitem response "Table" = inr (JDict d) ->
        assoc_lookup "GlobalSecondaryIndexes" d = Some (JList items) ->
        map_exn (fun n => py_getitem n "IndexStatus") items = inl e ->
        check_gsi_status env tablename w
        = (Ok true, w ++ [EvDescribeTable tablename; EvLog DEBUG MsgFailedToGetGSIs])).
Proof.
  intros Hd. split; [|split].
  - destruct (check_gsi_status_fail_open env tablename w response Hd) as (b & t & E & _).
    eauto.
  - intros e He. unfold check_gsi_status, client_describe_table.
    unfold bind at 1. rewrite Hd.
    unfold try_except, bind, lift. rewrite He. step. reflexivity.
  - intros d items e Ht Hsome Hmap. unfold check_gsi_status, client_describe_table.
    unfold bind at 1. rewrite Hd.
    unfold try_except, bind, lift. rewrite Ht. simpl. rewrite Hsome. simpl.
    rewrite Hmap. step. reflexivity.
Qed.

End StatusReads.

(** ** Errors of describe_table *)

(** X4. An error raised by [describe_table] is not handled anywhere: it
    leaves [check_table_status], [check_gsi_status] and
    [table_active_wait], and [lambda_handler] ends with it after its first
    poll, having updated nothing and notified nobody. *)
Theorem describe_table_error_escapes (env : Env) (fuel : nat)
    (event : gmap string string) (context : Context) (w : World) (e : exn) :
  describe_table env (n_describe w) (TABLE_NAME env) = inl e ->
  0 <= pow_floor env 15 0 ->
  check_table_status env (TABLE_NAME env) w
  = (Raise e, w ++ [EvDescribeTable (TABLE_NAME env)])
  /\ check_gsi_status env (TABLE_NAME env) w
     = (Raise e, w ++ [EvDescribeTable (TABLE_NAME env)])
  /\ table_active_wait env (S fuel) (TABLE_NAME env) 15 w
     = (Raise e,
        w ++ [EvLog DEBUG (MsgTableNotActive (TABLE_NAME env) (pow_floor env 15 0));
              EvSleep (pow_floor env 15 0);
              EvDescribeTable (TABLE_NAME env)])
  /\ lambda_handler env (S fuel) event context w
     = (Raise e,
        w ++ [EvLog DEBUG (MsgEvent event);
              EvLog DEBUG (MsgContext context);
              EvLog DEBUG (MsgTableNotActive (TABLE_NAME env) (pow_floor env 15 0));
              EvSleep (pow_floor env 15 0);
              EvDescribeTable (TABLE_NAME env)]).
Proof.
  intros Hd Hp.
  assert (Ct : forall t, count is_describe t = O ->
             check_table_status env (TABLE_NAME env) (w ++ t)
             = (Raise e, (w ++ t) ++ [EvDescribeTable (TABLE_NAME env)])).
  { intros t Ht. unfold check_table_status, client_describe_table.
    unfold bind at 1. unfold n_describe in *. rewrite count_app, Ht, Nat.add_0_r, Hd.
    reflexivity. }
  assert (S0 : (pow_floor env 15 0 <? 0) = false) by (apply Z.ltb_ge, Hp).
  split; [|split; [|split]].
  - rewrite <- (app_nil_r w) at 1. rewrite (Ct [] eq_refl), app_nil_r. reflexivity.
  - unfold check_gsi_status, client_describe_table.
    unfold bind at 1. rewrite Hd. reflexivity.
  - unfold table_active_wait. simpl. unfold exp_wait_of, sleep, cap_retry. simpl.
    unfold bind, ret, log, emit. simpl. rewrite S0. simpl.
    rewrite app_cons_assoc. erewrite Ct by reflexivity. rewrite <- app_assoc. reflexivity.
  - unfold lambda_handler, table_active_wait. simpl.
    unfold exp_wait_of, sleep, cap_retry. simpl.
    unfold bind, ret, log, emit. simpl. rewrite S0. simpl.
    rewrite !app_cons_assoc. erewrite Ct by reflexivity. rewrite <- app_assoc. reflexivity.
Qed.

(** ** The two polling loops *)

Lemma quiet_logs (t : list Event) :
  (forall p, (forall lvl msg, p (EvLog lvl msg) = false) -> count p t = O) ->
  Forall log_event t.
Proof.
  intros H. specialize (H (fun e => negb (is_log e)) (fun _ _ => eq_refl)).
  induction t as [|e t IH]; [constructor|].
  simpl in H. destruct e; simpl in H; try discriminate.
  constructor; [reflexivity | apply IH, H].
Qed.

Lemma logs_count (p : Event -> bool) (t : list Event) :
  (forall lvl msg, p (EvLog lvl msg) = false) -> Forall log_event t -> count p t = O.
Proof.
  intros Hp. induction 1 as [|e t He Ht IH]; [reflexivity|].
  destruct e; try discriminate. simpl. rewrite Hp. exact IH.
Qed.

Lemma logs_sleeps (t : list Event) : Forall log_event t -> sleeps_of t = [].
Proof.
  induction 1 as [|e t He Ht IH]; [reflexivity|].
  destruct e; try discriminate. exact IH.
Qed.

Lemma sleeps_of_app (t1 t2 : list Event) :
  sleeps_of (t1 ++ t2) = sleeps_of t1 ++ sleeps_of t2.
Proof.
  induction t1 as [|e t1 IH]; [reflexivity|].
  destruct e; simpl; rewrite ?IH; reflexivity.
Qed.

Lemma check_gsi_status_events (env : Env) (tablename : option string)
    (w : World) (r : outcome bool) (w' : World) :
  check_gsi_status env tablename w = (r, w') ->
  exists t, w' = w ++ EvDescribeTable tablename :: t /\ Forall log_event t.
Proof.
  intros H. unfold check_gsi_status, client_describe_table in H.
  unfold bind at 1 in H.
  destruct (describe_table env (n_describe w) tablename) as [e|response] eqn:Hd.
  - inversion H; subst. exists []. split; [reflexivity | constructor].
  - destruct (check_gsi_status_fail_open env tablename w response Hd)
      as (b & t & E & _).
    unfold check_gsi_status, client_describe_table in E.
    unfold bind at 1 in E. rewrite Hd in E. rewrite E in H. inversion H; subst.
    exists t. split; [reflexivity|].
    assert (P : Forall poll_event (EvDescribeTable tablename :: t)).
    { destruct (emits_check_gsi_status env tablename w (Ok b)
                  (w ++ EvDescribeTable tablename :: t)) as (t' & Ht' & F).
      - unfold check_gsi_status, client_describe_table.
        unfold bind at 1. rewrite Hd. exact E.
      - apply app_inv_head in Ht'. subst t'. exact F. }
    inversion P as [|? ? _ Pt]; subst. clear - Pt E Hd.
    (* the events after the call are log records *)
    revert E. unfold try_except, bind, lift, ret, raise, log, emit.
    destruct (py_getitem response "Table") as [e1|table]; simpl.
    { intros E. inversion E as [[Hb Hw]]. rewrite <- app_assoc in Hw.
      apply app_inv_head in Hw. inversion Hw; subst. repeat constructor. }
    destruct (py_contains _ table) as [e2|[]]; simpl.
    { intros E. inversion E as [[Hb Hw]]. rewrite <- app_assoc in Hw.
      apply app_inv_head in Hw. inversion Hw; subst. repeat constructor. }
    2:{ intros E. inversion E as [[Hb Hw]]. rewrite <- app_assoc in Hw.
        apply app_inv_head in Hw. inversion Hw; subst. repeat constructor. }
    destruct (py_getitem table _) as [e3|indexes]; simpl.
    { intros E. inversion E as [[Hb Hw]]. rewrite <- app_assoc in Hw.
      apply app_inv_head in Hw. inversion Hw; subst. repeat constructor. }
    destruct (py_iter indexes) as [e4|items]; simpl.
    { intros E. inversion E as [[Hb Hw]]. rewrite <- app_assoc in Hw.
      apply app_inv_head in Hw. inversion Hw; subst. repeat constructor. }
    destruct (map_exn _ items) as [e5|GSIs]; simpl.
    { intros E. inversion E as [[Hb Hw]]. rewrite <- app_assoc in Hw.
      apply app_inv_head in Hw. inversion Hw; subst. repeat constructor. }
    destruct (forallb _ GSIs); simpl; intros E; inversion E as [[Hb Hw]];
      apply app_inv_head in Hw; inversion Hw; subst; constructor.
Qed.

Section Polling.

Variable env : Env.
Variables (table_name : option string) (wait_seconds : Z).
Hypothesis wait_seconds_nonzero : wait_seconds <> 0.
Hypothesis pow_floor_nonneg : forall r, 0 <= pow_floor env wait_seconds r.

Lemma waits_step (retry : Z) (n : nat) :
  backoff_waits env wait_seconds retry (S n)
  = pow_floor env wait_seconds (cap_retry wait_seconds retry)
    :: backoff_waits env wait_seconds (cap_retry wait_seconds retry + 1) n.
Proof.
  unfold backoff_waits. cbn [seq map]. f_equal.
  - f_equal. unfold cap_retry. destruct (retry >? wait_seconds) eqn:E.
    + rewrite Z.gtb_ltb in E. apply Z.ltb_lt in E. lia.
    + rewrite Z.gtb_ltb in E. apply Z.ltb_ge in E. lia.
  - rewrite <- seq_shift, map_map. apply map_ext. intros i. f_equal.
    unfold cap_retry. destruct (retry >? wait_seconds) eqn:E.
    + rewrite Z.gtb_ltb in E. apply Z.ltb_lt in E. lia.
    + rewrite Z.gtb_ltb in E. apply Z.ltb_ge in E. lia.
Qed.

Lemma table_iteration (fuel : nat) (retry : Z) (w : World) :
  exists r tc,
    let exp_wait := pow_floor env wait_seconds (cap_retry wait_seconds retry) in
    let polled :=
      w ++ [EvLog DEBUG (MsgTableNotActive table_name exp_wait); EvSleep exp_wait] in
    check_table_status env table_name polled
    = (r, polled ++ EvDescribeTable table_name :: tc)
    /\ Forall log_event tc
    /\ table_loop env (S fuel) table_name wait_seconds false retry w
       = match r with
         | Ok flag =>
             table_loop env fuel table_name wait_seconds flag
               (cap_retry wait_seconds retry + 1)
               (polled ++ EvDescribeTable table_name :: tc ++ [EvLog DEBUG (MsgFlag flag)])
         | Raise e => (Raise e, polled ++ EvDescribeTable table_name :: tc)
         | OutOfFuel => (OutOfFuel, polled ++ EvDescribeTable table_name :: tc)
         end.
Proof.
  set (exp_wait := pow_floor env wait_seconds (cap_retry wait_seconds retry)).
  set (polled := w ++ [EvLog DEBUG (MsgTableNotActive table_name exp_wait);
                       EvSleep exp_wait]).
  destruct (check_table_status env table_name polled) as [r w3] eqn:C.
  destruct (check_table_status_events _ _ _ _ _ C) as (tc & -> & Hlogs).
  exists r, tc. cbv zeta. split; [exact C|]. split; [apply quiet_logs, Hlogs|].
  simpl. unfold exp_wait_of.
  destruct (wait_seconds =? 0) eqn:Z0; [apply Z.eqb_eq in Z0; contradiction|].
  unfold sleep. fold exp_wait.
  assert (S0 : (exp_wait <? 0) = false) by (apply Z.ltb_ge, pow_floor_nonneg).
  unfold bind, ret, log, emit. simpl. fold exp_wait. rewrite S0. simpl.
  rewrite app_cons_assoc. fold polled. rewrite C.
  destruct r as [flag|e|]; try reflexivity.
  rewrite <- app_assoc. reflexivity.
Qed.

Lemma gsi_iteration (fuel : nat) (retry : Z) (w : World) :
  exists r tc,
    let exp_wait := pow_floor env wait_seconds (cap_retry wait_seconds retry) in
    let polled :=
      w ++ [EvLog DEBUG (MsgGSIsNotActive table_name exp_wait); EvSleep exp_wait] in
    check_gsi_status env table_name polled
    = (r, polled ++ EvDescribeTable table_name :: tc)
    /\ Forall log_event tc
    /\ gsi_loop env (S fuel) table_name wait_seconds false retry w
       = match r with
         | Ok flag =>
             gsi_loop env fuel table_name wait_seconds flag
               (cap_retry wait_seconds retry + 1)
               (polled ++ EvDescribeTable table_name :: tc ++ [EvLog DEBUG (MsgFlag flag)])
         | Raise e => (Raise e, polled ++ EvDescribeTable table_name :: tc)
         | OutOfFuel => (OutOfFuel, polled ++ EvDescribeTable table_name :: tc)
         end.
Proof.
  set (exp_wait := pow_floor env wait_seconds (cap_retry wait_seconds retry)).
  set (polled := w ++ [EvLog DEBUG (MsgGSIsNotActive table_name exp_wait);
                       EvSleep exp_wait]).
  destruct (check_gsi_status env table_name polled) as [r w3] eqn:C.
  destruct (check_gsi_status_events _ _ _ _ _ C) as (tc & -> & Hlogs).
  exists r, tc. cbv zeta. split; [exact C|]. split; [exact Hlogs|].
  simpl. unfold exp_wait_of.
  destruct (wait_seconds =? 0) eqn:Z0; [apply Z.eqb_eq in Z0; contradiction|].
  unfold sleep. fold exp_wait.
  assert (S0 : (exp_wait <? 0) = false) by (apply Z.ltb_ge, pow_floor_nonneg).
  unfold bind, ret, log, emit. simpl. fold exp_wait. rewrite S0. simpl.
  rewrite app_cons_assoc. fold polled. rewrite C.
  destruct r as [flag|e|]; try reflexivity.
  rewrite <- app_assoc. reflexivity.
Qed.

Lemma polled_describes (w : World) (a b c : Event) (tc : list Event) (f : Event) :
  is_describe a = false -> is_describe b = false -> is_describe c = true ->
  is_describe f = false -> Forall log_event tc ->
  n_describe ((w ++ [a; b]) ++ c :: tc ++ [f]) = S (n_describe w).
Proof.
  intros Ha Hb Hc Hf L. unfold n_describe. count_events.
  rewrite Ha, Hb, Hc, Hf, (logs_count is_describe tc) by (auto || reflexivity). lia.
Qed.

Lemma table_loop_run (k : nat) :
  forall (fuel : nat) (retry : Z) (w : World),
    (forall j w1, (j < k)%nat -> n_describe w1 = (n_describe w + j)%nat ->
       fst (check_table_status env table_name w1) = Ok false) ->
    (forall w1, n_describe w1 = (n_describe w + k)%nat ->
       fst (check_table_status env table_name w1) = Ok true) ->
    (k < fuel)%nat ->
    exists t,
      table_loop env fuel table_name wait_seconds false retry w = (Ok tt, w ++ t)
      /\ count is_describe t = S k
      /\ sleeps_of t = backoff_waits env wait_seconds retry (S k).
Proof.
  induction k as [|k IH]; intros fuel retry w Hfalse Htrue Hfuel;
    (destruct fuel as [|fuel]; [lia|]);
    destruct (table_iteration fuel retry w) as (r & tc & C & L & E);
    cbv zeta in C, E; rewrite E; clear E.
  - assert (R : r = Ok true).
    { match type of C with
      | ?chk = _ => assert (X : fst chk = Ok true)
      end.
      { apply Htrue. unfold n_describe. count_events. lia. }
      rewrite C in X. exact X. }
    subst r. rewrite table_loop_done, <- app_assoc. eexists. split; [reflexivity|].
    rewrite waits_step. simpl. rewrite count_app, sleeps_of_app.
    rewrite (logs_count is_describe tc), (logs_sleeps tc) by (auto || reflexivity).
    split; reflexivity.
  - assert (R : r = Ok false).
    { match type of C with
      | ?chk = _ => assert (X : fst chk = Ok false)
      end.
      { apply (Hfalse O); [lia|]. unfold n_describe. count_events. lia. }
      rewrite C in X. exact X. }
    subst r.
    match goal with
    | |- context [table_loop env fuel table_name wait_seconds false ?retry' ?w4] =>
        destruct (IH fuel retry' w4) as (t & E & D & S1);
        [ | | lia | rewrite E ]
    end.
    + intros j w1 Hj Hn. apply (Hfalse (S j)); [lia|].
      rewrite Hn, polled_describes by (auto || reflexivity). lia.
    + intros w1 Hn. apply Htrue.
      rewrite Hn, polled_describes by (auto || reflexivity). lia.
    + rewrite <- !app_assoc. eexists. split; [reflexivity|].
      rewrite waits_step. simpl. rewrite !count_app, !sleeps_of_app. simpl.
      rewrite (logs_count is_describe tc), (logs_sleeps tc), D, S1
        by (auto || reflexivity).
      split; [lia | reflexivity].
Qed.

Lemma gsi_loop_run (k : nat) :
  forall (fuel : nat) (retry : Z) (w : World),
    (forall j w1, (j < k)%nat -> n_describe w1 = (n_describe w + j)%nat ->
       fst (check_gsi_status env table_name w1) = Ok false) ->
    (forall w1, n_describe w1 = (n_describe w + k)%nat ->
       fst (check_gsi_status env table_name w1) = Ok true) ->
    (k < fuel)%nat ->
    exists t,
      gsi_loop env fuel table_name wait_seconds false retry w = (Ok tt, w ++ t)
      /\ count is_describe t = S k
      /\ sleeps_of t = backoff_waits env wait_seconds retry (S k).
Proof.
  induction k as [|k IH]; intros fuel retry w Hfalse Htrue Hfuel;
    (destruct fuel as [|fuel]; [lia|]);
    destruct (gsi_iteration fuel retry w) as (r & tc & C & L & E);
    cbv zeta in C, E; rewrite E; clear E.
  - assert (R : r = Ok true).
    { match type of C with
      | ?chk = _ => assert (X : fst chk = Ok true)
      end.
      { apply Htrue. unfold n_describe. count_events. lia. }
      rewrite C in X. exact X. }
    subst r. rewrite gsi_loop_done, <- app_assoc. eexists. split; [reflexivity|].
    rewrite waits_step. simpl. rewrite count_app, sleeps_of_app.
    rewrite (logs_count is_describe tc), (logs_sleeps tc) by (auto || reflexivity).
    split; reflexivity.
  - assert (R : r = Ok false).
    { match type of C with
      | ?chk = _ => assert (X : fst chk = Ok false)
      end.
      { apply (Hfalse O); [lia|]. unfold n_describe. count_events. lia. }
      rewrite C in X. exact X. }
    subst r.
    match goal with
    | |- context [gsi_loop env fuel table_name wait_seconds false ?retry' ?w4] =>
        destruct (IH fuel retry' w4) as (t & E & D & S1);
        [ | | lia | rewrite E ]
    end.
    + intros j w1 Hj Hn. apply (Hfalse (S j)); [lia|].
      rewrite Hn, polled_describes by (auto || reflexivity). lia.
    + intros w1 Hn. apply Htrue.
      rewrite Hn, polled_describes by (auto || reflexivity). lia.
    + rewrite <- !app_assoc. eexists. split; [reflexivity|].
      rewrite waits_step. simpl. rewrite !count_app, !sleeps_of_app. simpl.
      rewrite (logs_count is_describe tc), (logs_sleeps tc), D, S1
        by (auto || reflexivity).
      split; [lia | reflexivity].
Qed.

End Polling.

(** X5. [table_active_wait] converges.  If the table check returns
    [False] on the first [a] polls and [True] on the next one, and the
    index check then returns [False] on [b] polls and [True] on the next
    one, the function returns after exactly [a + 1 + b + 1] calls of
    [describe_table], each preceded by one sleep.  The retry count behind
    the [i]-th sleep of either loop is [min i wait_seconds]: it is capped
    at [wait_seconds], and it starts again from zero when the function
    turns from the table to its indexes. *)
Theorem table_active_wait_converges (env : Env) (table_name : option string)
    (wait_seconds : Z) (a b fuel : nat) (w : World) :
  wait_seconds <> 0 ->
  (forall r, 0 <= pow_floor env wait_seconds r) ->
  (forall j w1, (j < a)%nat -> n_describe w1 = (n_describe w + j)%nat ->
     fst (check_table_status env table_name w1) = Ok false) ->
  (forall w1, n_describe w1 = (n_describe w + a)%nat ->
     fst (check_table_status env table_name w1) = Ok true) ->
  (forall j w1, (j < b)%nat -> n_describe w1 = (n_describe w + S a + j)%nat ->
     fst (check_gsi_status env table_name w1) = Ok false) ->
  (forall w1, n_describe w1 = (n_describe w + S a + b)%nat ->
     fst (check_gsi_status env table_name w1) = Ok true) ->
  (a < fuel)%nat ->
  (b < fuel)%nat ->
  exists t,
    table_active_wait env fuel table_name wait_seconds w = (Ok tt, w ++ t)
    /\ count is_describe t = (S a + S b)%nat
    /\ sleeps_of t
       = map (fun i => pow_floor env wait_seconds (Z.min (Z.of_nat i) wait_seconds))
             (seq 0 (S a))
         ++ map (fun i => pow_floor env wait_seconds (Z.min (Z.of_nat i) wait_seconds))
                (seq 0 (S b)).
Proof.
  intros H0 Hp Tf Tt Gf Gt Ha Hb.
  destruct (table_loop_run env table_name wait_seconds H0 Hp a fuel 0 w Tf Tt Ha)
    as (t1 & E1 & D1 & S1).
  assert (N1 : n_describe ((w ++ t1) ++ [EvLog DEBUG (MsgTableActive table_name)])
               = (n_describe w + S a)%nat).
  { unfold n_describe. rewrite !count_app, D1. simpl. lia. }
  destruct (gsi_loop_run env table_name wait_seconds H0 Hp b fuel 0
              ((w ++ t1) ++ [EvLog DEBUG (MsgTableActive table_name)]))
    as (t2 & E2 & D2 & S2).
  { intros j w1 Hj Hn. apply (Gf j); [exact Hj|]. rewrite Hn, N1. reflexivity. }
  { intros w1 Hn. apply Gt. rewrite Hn, N1. reflexivity. }
  { exact Hb. }
  exists (t1 ++ [EvLog DEBUG (MsgTableActive table_name)] ++ t2
             ++ [EvLog DEBUG (MsgGSIsActive table_name)]).
  split; [|split].
  - unfold table_active_wait.
    rewrite (bind_ok _ _ _ _ _ E1).
    rewrite (bind_ok (log _ _) _ _ _ tt eq_refl).
    rewrite (bind_ok _ _ _ _ _ E2).
    rewrite (bind_ok (log _ _) _ _ _ tt eq_refl).
    unfold ret. rewrite <- !app_assoc. reflexivity.
  - rewrite !count_app, D1, D2. simpl. lia.
  - rewrite !sleeps_of_app, S1, S2. simpl. rewrite !app_nil_r.
    unfold backoff_waits. reflexivity.
Qed.


Lemma poll_events_read_only (t : list Event) :
  Forall poll_event t ->
  update_requests t = [] /\ urlopen_requests t = [] /\ count is_remaining t = O.
Proof.
  induction 1 as [|e t He Ht IH]; [auto|].
  destruct IH as (IH1 & IH2 & IH3).
  destruct e; simpl in *; try contradiction; auto.
Qed.

(** X7. The poller only reads: whatever the environment answers and
    however the run ends, [table_active_wait] sends no [update_table]
    request, no request to the callback URL, and never asks for the
    remaining time. *)
Theorem table_active_wait_only_polls (env : Env) (fuel : nat)
    (table_name : option string) (wait_seconds : Z)
    (w : World) (r : outcome unit) (w' : World) :
  table_active_wait env fuel table_name wait_seconds w = (r, w') ->
  exists t,
    w' = w ++ t
    /\ update_requests t = []
    /\ urlopen_requests t = []
    /\ count is_remaining t = O.
Proof.
  intros H.
  destruct (emits_table_active_wait env _ _ _ _ _ _ H) as (t & -> & F).
  exists t. split; [reflexivity|]. apply poll_events_read_only, F.
Qed.

(** ** The retry wrapper around a creator *)

Section Retries.

Variable env : Env.
Variables (i : nat) (fn_name : string) (req : UpdateTableReq).
Variables (context : Context) (num_retries wait_seconds : Z).
Variable errors : nat -> exn.

Let body : M unit :=
  try_except
    (log INFO (MsgAddingGSI i) ;;
     client_update_table env req ;;
     log INFO (MsgGSIAdded i))%py
    (fun e => raise e).

Lemma failed_attempt_counts (retry : Z) (e : exn) :
  count is_remaining
    (failed_attempt_events i fn_name req num_retries wait_seconds retry e) = 1%nat
  /\ count is_update
       (failed_attempt_events i fn_name req num_retries wait_seconds retry e) = 1%nat.
Proof.
  unfold failed_attempt_events.
  destruct (retry + 1 >? num_retries); split; reflexivity.
Qed.

(** One attempt that fails with an unrelated error, seen from the loop. *)
Lemma wrapper_loop_failed_attempt (n : nat) (retry : Z) (w : World) :
  0 <= wait_seconds ->
  retry <= num_retries ->
  10000 < get_remaining_time_in_millis env (n_remaining w) ->
  update_table env (n_update w) req = Some (errors (n_update w)) ->
  str_contains "already exists" (exn_str (errors (n_update w))) = false ->
  wrapper_loop env (S n) fn_name body context num_retries wait_seconds retry w
  = wrapper_loop env n fn_name body context num_retries wait_seconds (retry + 1)
      (w ++ failed_attempt_events i fn_name req num_retries wait_seconds retry
              (errors (n_update w))).
Proof.
  intros Hws Hretry Hrem Hupd Herr. cbn [wrapper_loop].
  apply Z.leb_le in Hretry. rewrite Hretry.
  unfold bind at 1. unfold context_get_remaining_time_in_millis.
  assert (R : (get_remaining_time_in_millis env (n_remaining w) <=? 10000) = false)
    by (apply Z.leb_gt; lia).
  rewrite R.
  unfold bind at 1. unfold attempt.
  rewrite (body_raises env i req _ (errors (n_update w))).
  2:{ unfold n_update in *. rewrite count_app. simpl. rewrite Nat.add_0_r. exact Hupd. }
  unfold bind at 1. unfold log at 1, emit at 1.
  unfold bind at 1. unfold log at 1, emit at 1.
  unfold bind at 1. unfold log at 1, emit at 1.
  rewrite Herr. unfold sleep.
  assert (S0 : (wait_seconds <? 0) = false) by (apply Z.ltb_ge; lia).
  rewrite S0.
  unfold bind at 1. unfold emit at 1.
  unfold failed_attempt_events.
  destruct (retry + 1 >? num_retries).
  - unfold bind at 1. unfold log at 1, emit at 1.
    rewrite <- !app_assoc. reflexivity.
  - unfold bind at 1. unfold ret at 1.
    rewrite <- !app_assoc. reflexivity.
Qed.

(** [k] such attempts in a row. *)
Lemma wrapper_loop_failed_prefix (k : nat) :
  forall (n : nat) (retry : Z) (w : World),
    0 <= wait_seconds ->
    retry + Z.of_nat k <= num_retries + 1 ->
    (forall j, (j < k)%nat ->
       10000 < get_remaining_time_in_millis env (n_remaining w + j)) ->
    (forall j, (j < k)%nat ->
       update_table env (n_update w + j) req = Some (errors (n_update w + j)%nat)) ->
    (forall j, (j < k)%nat ->
       str_contains "already exists" (exn_str (errors (n_update w + j)%nat)) = false) ->
    wrapper_loop env (k + n) fn_name body context num_retries wait_seconds retry w
    = wrapper_loop env n fn_name body context num_retries wait_seconds
        (retry + Z.of_nat k)
        (w ++ failed_attempts i fn_name req num_retries wait_seconds errors
                (n_update w) retry k).
Proof.
  induction k as [|k IH]; intros n retry w Hws Hk Hrem Hupd Herr.
  - simpl. rewrite app_nil_r, Z.add_0_r. reflexivity.
  - pose proof (Hrem O ltac:(lia)) as R0. pose proof (Hupd O ltac:(lia)) as U0.
    pose proof (Herr O ltac:(lia)) as E0.
    rewrite Nat.add_0_r in R0, U0, E0.
    change (S k + n)%nat with (S (k + n)).
    rewrite wrapper_loop_failed_attempt by (assumption || lia).
    destruct (failed_attempt_counts retry (errors (n_update w))) as [CR CU].
    rewrite IH.
    + cbn [failed_attempts]. rewrite <- app_assoc.
      unfold n_update at 2. rewrite count_app. fold (n_update w). rewrite CU.
      rewrite Nat.add_1_r. f_equal. lia.
    + exact Hws.
    + lia.
    + intros j Hj. unfold n_remaining. rewrite count_app. fold (n_remaining w).
      rewrite CR. replace (n_remaining w + 1 + j)%nat with (n_remaining w + S j)%nat by lia.
      apply Hrem. lia.
    + intros j Hj. unfold n_update. rewrite count_app. fold (n_update w).
      rewrite CU. replace (n_update w + 1 + j)%nat with (n_update w + S j)%nat by lia.
      apply Hupd. lia.
    + intros j Hj. unfold n_update. rewrite count_app. fold (n_update w).
      rewrite CU. replace (n_update w + 1 + j)%nat with (n_update w + S j)%nat by lia.
      apply Herr. lia.
Qed.

End Retries.

Section RetryOutcomes.

Variable env : Env.
Variables (i : nat) (fn_name : string) (req : UpdateTableReq).
Variables (context : Context) (num_retries wait_seconds : Z).
Variable errors : nat -> exn.

Let body : M unit :=
  try_except
    (log INFO (MsgAddingGSI i) ;;
     client_update_table env req ;;
     log INFO (MsgGSIAdded i))%py
    (fun e => raise e).

Lemma failed_attempts_counts (k : nat) :
  forall call retry,
    let t := failed_attempts i fn_name req num_retries wait_seconds errors call retry k in
    count is_remaining t = k
    /\ count is_update t = k
    /\ sleeps_of t = repeat wait_seconds k
    /\ update_requests t = repeat req k.
Proof.
  induction k as [|k IH]; intros call retry; cbv zeta; [repeat split|].
  destruct (IH (S call) (retry + 1)) as (R & U & S1 & Q). cbv zeta in R, U, S1, Q.
  cbn [failed_attempts]. unfold failed_attempt_events.
  destruct (retry + 1 >? num_retries); simpl; rewrite R, U, S1, Q; repeat split.
Qed.

Lemma retries_then_success (k : nat) (w : World) :
  0 <= wait_seconds ->
  Z.of_nat k <= num_retries ->
  (forall j, (j <= k)%nat ->
     10000 < get_remaining_time_in_millis env (n_remaining w + j)) ->
  (forall j, (j < k)%nat ->
     update_table env (n_update w + j) req = Some (errors (n_update w + j)%nat)) ->
  (forall j, (j < k)%nat ->
     str_contains "already exists" (exn_str (errors (n_update w + j)%nat)) = false) ->
  update_table env (n_update w + k) req = None ->
  function_retry env fn_name body context num_retries wait_seconds w
  = (Ok (Some tt),
     w ++ failed_attempts i fn_name req num_retries wait_seconds errors (n_update w) 0 k
       ++ created_events i req).
Proof.
  intros Hws Hk Hrem Hupd Herr Hok. unfold function_retry.
  replace (Z.to_nat (num_retries + 1)) with (k + S (Z.to_nat num_retries - k))%nat by lia.
  rewrite (wrapper_loop_failed_prefix env i fn_name req context num_retries
             wait_seconds errors k)
    by first [assumption | lia | intros; apply Hrem; lia].
  destruct (failed_attempts_counts k (n_update w) 0) as (R & U & _). cbv zeta in R, U.
  erewrite wrapper_returns_value.
  - rewrite app_assoc. reflexivity.
  - lia.
  - unfold n_remaining. rewrite count_app. fold (n_remaining w). rewrite R.
    apply Hrem. lia.
  - rewrite (body_returns env i req).
    + unfold created_events. rewrite <- !app_assoc. reflexivity.
    + unfold n_update. rewrite !count_app. fold (n_update w). rewrite U. simpl.
      rewrite Nat.add_0_r. exact Hok.
Qed.

Lemma retries_then_timeout (k : nat) (w : World) :
  0 <= wait_seconds ->
  Z.of_nat k <= num_retries ->
  (forall j, (j < k)%nat ->
     10000 < get_remaining_time_in_millis env (n_remaining w + j)) ->
  get_remaining_time_in_millis env (n_remaining w + k) <= 10000 ->
  (forall j, (j < k)%nat ->
     update_table env (n_update w + j) req = Some (errors (n_update w + j)%nat)) ->
  (forall j, (j < k)%nat ->
     str_contains "already exists" (exn_str (errors (n_update w + j)%nat)) = false) ->
  function_retry env fn_name body context num_retries wait_seconds w
  = (Raise timeout_exn,
     w ++ failed_attempts i fn_name req num_retries wait_seconds errors (n_update w) 0 k
       ++ [EvRemainingTime]).
Proof.
  intros Hws Hk Hrem Hlate Hupd Herr. unfold function_retry.
  replace (Z.to_nat (num_retries + 1)) with (k + S (Z.to_nat num_retries - k))%nat by lia.
  rewrite (wrapper_loop_failed_prefix env i fn_name req context num_retries
             wait_seconds errors k)
    by first [assumption | lia | intros; apply Hrem; lia].
  destruct (failed_attempts_counts k (n_update w) 0) as (R & _). cbv zeta in R.
  cbn [wrapper_loop].
  assert (L : (0 + Z.of_nat k <=? num_retries) = true) by (apply Z.leb_le; lia).
  rewrite L.
  unfold bind at 1. unfold context_get_remaining_time_in_millis.
  unfold n_remaining at 1. rewrite count_app. fold (n_remaining w). rewrite R.
  apply Z.leb_le in Hlate. rewrite Hlate.
  rewrite app_assoc. reflexivity.
Qed.

Lemma negative_wait_escapes (w : World) (e : exn) :
  0 <= num_retries ->
  wait_seconds < 0 ->
  10000 < get_remaining_time_in_millis env (n_remaining w) ->
  update_table env (n_update w) req = Some e ->
  str_contains "already exists" (exn_str e) = false ->
  function_retry env fn_name body context num_retries wait_seconds w
  = (Raise negative_sleep,
     w ++ [EvRemainingTime;
           EvLog INFO (MsgAddingGSI i);
           EvUpdateTable req;
           EvLog DEBUG (MsgRetrying fn_name wait_seconds);
           EvLog DEBUG (MsgRetriesRemaining (num_retries - 0));
           EvLog DEBUG (MsgRetryCause e)]).
Proof.
  intros Hn Hws Hrem Hupd He. unfold function_retry.
  destruct (Z.to_nat (num_retries + 1)) as [|n] eqn:E; [lia|].
  cbn [wrapper_loop].
  assert (L : (0 <=? num_retries) = true) by (apply Z.leb_le; lia).
  rewrite L.
  unfold bind at 1. unfold context_get_remaining_time_in_millis.
  assert (R : (get_remaining_time_in_millis env (n_remaining w) <=? 10000) = false)
    by (apply Z.leb_gt; lia).
  rewrite R.
  unfold bind at 1. unfold attempt.
  rewrite (body_raises env i req _ e).
  2:{ unfold n_update in *. rewrite count_app. simpl. rewrite Nat.add_0_r. exact Hupd. }
  unfold bind at 1. unfold log at 1, emit at 1.
  unfold bind at 1. unfold log at 1, emit at 1.
  unfold bind at 1. unfold log at 1, emit at 1.
  rewrite He. unfold sleep.
  apply Z.ltb_lt in Hws. rewrite Hws.
  unfold bind, raise. rewrite <- !app_assoc. reflexivity.
Qed.


End RetryOutcomes.

(** X8. A creation that succeeds at last.  If [update_table] fails [k]
    times ([k <= num_retries]) with errors that do not say 'already exists'
    and then succeeds, time never being short, each creator returns the
    value of its function after [k + 1] calls and exactly [k] sleeps of
    [wait_seconds]; with [k = 0] it does not sleep at all. *)
Theorem creator_succeeds_after_retries (env : Env) (context : Context)
    (num_retries wait_seconds : Z) (errors : nat -> exn) (k : nat) (w : World) :
  0 <= wait_seconds ->
  Z.of_nat k <= num_retries ->
  (forall j, (j <= k)%nat ->
     10000 < get_remaining_time_in_millis env (n_remaining w + j)) ->
  (forall j req, (j < k)%nat ->
     update_table env (n_update w + j) req = Some (errors (n_update w + j)%nat)) ->
  (forall j, (j < k)%nat ->
     str_contains "already exists" (exn_str (errors (n_update w + j)%nat)) = false) ->
  (forall req, update_table env (n_update w + k) req = None) ->
  let trace_of i fn_name req :=
    failed_attempts i fn_name req num_retries wait_seconds errors (n_update w) 0 k
    ++ created_events i req in
  create_gsi_1 env context num_retries wait_seconds w
  = (Ok (Some tt), w ++ trace_of 1%nat "create_gsi_1" (gsi_1_request env))
  /\ create_gsi_2 env context num_retries wait_seconds w
     = (Ok (Some tt), w ++ trace_of 2%nat "create_gsi_2" (gsi_2_request env))
  /\ forall i fn_name req,
       sleeps_of (trace_of i fn_name req) = repeat wait_seconds k
       /\ update_requests (trace_of i fn_name req) = repeat req (S k).
Proof.
  intros Hws Hk Hrem Hupd Herr Hok trace_of. split; [|split].
  - apply (retries_then_success env 1 "create_gsi_1" (gsi_1_request env)); auto.
  - apply (retries_then_success env 2 "create_gsi_2" (gsi_2_request env)); auto.
  - intros i fn_name req. unfold trace_of.
    destruct (failed_attempts_counts i fn_name req num_retries wait_seconds errors k
                (n_update w) 0) as (_ & _ & S1 & Q). cbv zeta in S1, Q.
    split.
    + rewrite sleeps_of_app, S1. simpl. apply app_nil_r.
    + assert (A : forall t1 t2, update_requests (t1 ++ t2)
                                = update_requests t1 ++ update_requests t2).
      { intros t1 t2. induction t1 as [|e t1 IH]; [reflexivity|].
        destruct e; simpl; rewrite ?IH; reflexivity. }
      rewrite A, Q. simpl. rewrite <- repeat_cons. reflexivity.
Qed.

(** X9. The time check is made before every attempt.  If [update_table]
    fails [k] times ([k <= num_retries]) with unrelated errors and the
    reading that precedes the next attempt finds at most 10000 ms, each
    creator raises 'Function was about to timeout' after those [k] attempts
    and [k] sleeps, without a further call. *)
Theorem creator_times_out_between_retries (env : Env) (context : Context)
    (num_retries wait_seconds : Z) (errors : nat -> exn) (k : nat) (w : World) :
  0 <= wait_seconds ->
  Z.of_nat k <= num_retries ->
  (forall j, (j < k)%nat ->
     10000 < get_remaining_time_in_millis env (n_remaining w + j)) ->
  get_remaining_time_in_millis env (n_remaining w + k) <= 10000 ->
  (forall j req, (j < k)%nat ->
     update_table env (n_update w + j) req = Some (errors (n_update w + j)%nat)) ->
  (forall j, (j < k)%nat ->
     str_contains "already exists" (exn_str (errors (n_update w + j)%nat)) = false) ->
  create_gsi_1 env context num_retries wait_seconds w
  = (Raise timeout_exn,
     w ++ failed_attempts 1 "create_gsi_1" (gsi_1_request env) num_retries wait_seconds
            errors (n_update w) 0 k
       ++ [EvRemainingTime])
  /\ create_gsi_2 env context num_retries wait_seconds w
     = (Raise timeout_exn,
        w ++ failed_attempts 2 "create_gsi_2" (gsi_2_request env) num_retries
               wait_seconds errors (n_update w) 0 k
          ++ [EvRemainingTime]).
Proof.
  intros Hws Hk Hrem Hlate Hupd Herr. split.
  - apply (retries_then_timeout env 1 "create_gsi_1" (gsi_1_request env)); auto.
  - apply (retries_then_timeout env 2 "create_gsi_2" (gsi_2_request env)); auto.
Qed.


(** X11. A negative [wait_seconds] defeats the retries.  After the first
    failed attempt the wrapper means to sleep; [time.sleep] raises
    [ValueError] inside the handler, and that error leaves the creator
    although retries remain. *)
Theorem creator_negative_wait (env : Env) (context : Context)
    (num_retries wait_seconds : Z) (w : World) (e : exn) :
  0 <= num_retries ->
  wait_seconds < 0 ->
  10000 < get_remaining_time_in_millis env (n_remaining w) ->
  (forall req, update_table env (n_update w) req = Some e) ->
  str_contains "already exists" (exn_str e) = false ->
  create_gsi_1 env context num_retries wait_seconds w
  = (Raise negative_sleep,
     w ++ [EvRemainingTime;
           EvLog INFO (MsgAddingGSI 1);
           EvUpdateTable (gsi_1_request env);
           EvLog DEBUG (MsgRetrying "create_gsi_1" wait_seconds);
           EvLog DEBUG (MsgRetriesRemaining (num_retries - 0));
           EvLog DEBUG (MsgRetryCause e)])
  /\ create_gsi_2 env context num_retries wait_seconds w
     = (Raise negative_sleep,
        w ++ [EvRemainingTime;
              EvLog INFO (MsgAddingGSI 2);
              EvUpdateTable (gsi_2_request env);
              EvLog DEBUG (MsgRetrying "create_gsi_2" wait_seconds);
              EvLog DEBUG (MsgRetriesRemaining (num_retries - 0));
              EvLog DEBUG (MsgRetryCause e)]).
Proof.
  intros Hn Hws Hrem Hupd He. split.
  - apply (negative_wait_escapes env 1 "create_gsi_1" (gsi_1_request env)); auto.
  - apply (negative_wait_escapes env 2 "create_gsi_2" (gsi_2_request env)); auto.
Qed.

(** ** The handler from end to end *)

Section EndToEnd.

Variable env : Env.
Variables (event : gmap string string) (context : Context).

Lemma creator_single_attempt (i : nat) (fn_name : string) (req : UpdateTableReq)
    (w : World) :
  10000 < get_remaining_time_in_millis env (n_remaining w) ->
  (update_table env (n_update w) req = None
   \/ exists e, update_table env (n_update w) req = Some e
                /\ str_contains "already exists" (exn_str e) = true) ->
  exists v c,
    function_retry env fn_name
      (try_except
         (log INFO (MsgAddingGSI i) ;;
          client_update_table env req ;;
          log INFO (MsgGSIAdded i))%py
         (fun e => raise e))
      context 5 30 w
    = (Ok v, w ++ c)
    /\ single_attempt i fn_name req c.
Proof.
  intros Hrem [Hok|(e & He & Hc)].
  - exists (Some tt), (created_events i req). split; [|left; reflexivity].
    apply (creator_creates env i fn_name req context 5 30); [lia | exact Hrem | exact Hok].
  - exists None, (existing_events i fn_name req 5 30 e).
    split; [|right; exists e; auto].
    apply (creator_finds_existing env i fn_name req context 5 30); auto. lia.
Qed.

Hypothesis time_left : forall k, 10000 < get_remaining_time_in_millis env k.
Hypothesis updates_settle :
  forall k req,
    update_table env k req = None
    \/ exists e, update_table env k req = Some e
                 /\ str_contains "already exists" (exn_str e) = true.
Hypothesis waits_complete :
  forall w, exists fuel w',
    table_active_wait env fuel (TABLE_NAME env) 15 w = (Ok tt, w').

Lemma creations_single_attempts (w : World) :
  exists (fuel0 : nat) (wait1 c1 wait2 c2 wait3 : list Event),
    Forall poll_event wait1 /\ Forall poll_event wait2 /\ Forall poll_event wait3
    /\ single_attempt 1 "create_gsi_1" (gsi_1_request env) c1
    /\ single_attempt 2 "create_gsi_2" (gsi_2_request env) c2
    /\ forall fuel, (fuel0 <= fuel)%nat ->
         creations env fuel event context w
         = (Ok tt,
            w ++ [EvLog DEBUG (MsgEvent event); EvLog DEBUG (MsgContext context)]
              ++ wait1
              ++ EvLog INFO (MsgCreatingGSI 1 (TABLE_NAME env)) :: c1
              ++ wait2
              ++ EvLog INFO (MsgCreatingGSI 2 (TABLE_NAME env)) :: c2
              ++ wait3).
Proof.
  destruct (waits_complete
              ((w ++ [EvLog DEBUG (MsgEvent event)]) ++ [EvLog DEBUG (MsgContext context)]))
    as (f1 & w1 & W1).
  destruct (emits_table_active_wait env _ _ _ _ _ _ W1) as (t1 & -> & F1).
  match type of W1 with
  | _ = (_, ?W) =>
      destruct (creator_single_attempt 1 "create_gsi_1" (gsi_1_request env)
                  (W ++ [EvLog INFO (MsgCreatingGSI 1 (TABLE_NAME env))]))
        as (v1 & c1 & C1 & S1); [apply time_left | apply updates_settle |]
  end.
  match type of C1 with
  | _ = (_, ?W) => destruct (waits_complete W) as (f2 & w3 & W3)
  end.
  destruct (emits_table_active_wait env _ _ _ _ _ _ W3) as (t2 & -> & F2).
  match type of W3 with
  | _ = (_, ?W) =>
      destruct (creator_single_attempt 2 "create_gsi_2" (gsi_2_request env)
                  (W ++ [EvLog INFO (MsgCreatingGSI 2 (TABLE_NAME env))]))
        as (v2 & c2 & C2 & S2); [apply time_left | apply updates_settle |]
  end.
  match type of C2 with
  | _ = (_, ?W) => destruct (waits_complete W) as (f3 & w5 & W5)
  end.
  destruct (emits_table_active_wait env _ _ _ _ _ _ W5) as (t3 & -> & F3).
  exists (Nat.max f1 (Nat.max f2 f3)), t1, c1, t2, c2, t3.
  repeat (split; [assumption|]).
  intros fuel Hf. unfold creations, lambda_handler_then.
  rewrite (bind_ok (log _ _) _ w _ tt eq_refl).
  rewrite (bind_ok (log _ _) _ _ _ tt eq_refl).
  rewrite (bind_ok _ _ _ _ _
             (table_active_wait_more_fuel env f1 fuel _ _ _ _ ltac:(lia) W1)).
  rewrite (bind_ok (log _ _) _ _ _ tt eq_refl).
  rewrite (bind_ok _ _ _ _ _ C1).
  rewrite (bind_ok _ _ _ _ _
             (table_active_wait_more_fuel env f2 fuel _ _ _ _ ltac:(lia) W3)).
  rewrite (bind_ok (log _ _) _ _ _ tt eq_refl).
  rewrite (bind_ok _ _ _ _ _ C2).
  rewrite (bind_ok _ _ _ _ _
             (table_active_wait_more_fuel env f3 fuel _ _ _ _ ltac:(lia) W5)).
  unfold ret. rewrite <- !app_assoc. reflexivity.
Qed.

End EndToEnd.

(** X12. A run without retries.  When every [update_table] call either
    succeeds or answers that the index already exists (a first run, a
    re-run, or a mix), time is not short and the waits complete,
    [lambda_handler], given enough fuel, returns normally; each creator
    makes a single attempt and does not sleep, the request for index 1
    comes before the one for index 2, and the run ends with the one
    request to the callback URL, with status SUCCESS. *)
Theorem lambda_handler_without_retries (env : Env) (event : gmap string string)
    (context : Context) (stack request_id logical url : string) (w : World) :
  (forall k, 10000 < get_remaining_time_in_millis env k) ->
  (forall k req,
     update_table env k req = None
     \/ exists e, update_table env k req = Some e
                  /\ str_contains "already exists" (exn_str e) = true) ->
  (forall w1, exists fuel w2,
     table_active_wait env fuel (TABLE_NAME env) 15 w1 = (Ok tt, w2)) ->
  event !! "StackId" = Some stack ->
  event !! "RequestId" = Some request_id ->
  event !! "LogicalResourceId" = Some logical ->
  event !! "ResponseURL" = Some url ->
  url_has_type env url = true ->
  exists (fuel0 : nat) (wait1 c1 wait2 c2 wait3 : list Event),
    Forall poll_event wait1 /\ Forall poll_event wait2 /\ Forall poll_event wait3
    /\ single_attempt 1 "create_gsi_1" (gsi_1_request env) c1
    /\ single_attempt 2 "create_gsi_2" (gsi_2_request env) c2
    /\ let t :=
         [EvLog DEBUG (MsgEvent event); EvLog DEBUG (MsgContext context)]
         ++ wait1
         ++ EvLog INFO (MsgCreatingGSI 1 (TABLE_NAME env)) :: c1
         ++ wait2
         ++ EvLog INFO (MsgCreatingGSI 2 (TABLE_NAME env)) :: c2
         ++ wait3 in
       update_requests t = [gsi_1_request env; gsi_2_request env]
       /\ forall fuel, (fuel0 <= fuel)%nat ->
            lambda_handler env fuel event context w
            = (Ok tt,
               (w ++ t)
               ++ send_events env (w ++ t)
                    (notification_request env context "SUCCESS"
                       (default_reason context) stack request_id logical url)).
Proof.
  intros Hrem Hupd Hwait Hs Hr Hl Hu Ht.
  destruct (creations_single_attempts env event context Hrem Hupd Hwait w)
    as (fuel0 & wait1 & c1 & wait2 & c2 & wait3 & F1 & F2 & F3 & S1 & S2 & R).
  exists fuel0, wait1, c1, wait2, c2, wait3.
  repeat (split; [assumption|]). cbv zeta. split.
  - assert (A : forall t1 t2, update_requests (t1 ++ t2)
                              = update_requests t1 ++ update_requests t2).
    { intros t1 t2. induction t1 as [|e t1 IH]; [reflexivity|].
      destruct e; simpl; rewrite ?IH; reflexivity. }
    assert (P : forall t, Forall poll_event t -> update_requests t = [])
      by (intros t F; apply (poll_events_read_only t F)).
    simpl. rewrite A, (P wait1 F1). simpl.
    rewrite A. simpl.
    assert (Q1 : update_requests c1 = [gsi_1_request env])
      by (destruct S1 as [->|(e & _ & ->)]; reflexivity).
    assert (Q2 : update_requests c2 = [gsi_2_request env])
      by (destruct S2 as [->|(e & _ & ->)]; reflexivity).
    rewrite Q1, A, (P wait2 F2). simpl.
    rewrite A, Q2, (P wait3 F3). reflexivity.
  - intros fuel Hf.
    rewrite lambda_handler_unfold, lambda_handler_then_split.
    rewrite (bind_ok _ _ _ _ _ (R fuel Hf)).
    unfold notification, try_except.
    match goal with
    | |- context [send_response env context event "SUCCESS" None ?W] =>
        rewrite (send_response_sends env context event "SUCCESS" None W
                   stack request_id logical url Hs Hr Hl Hu Ht)
    end.
    reflexivity.
Qed.

(** X13. Running out of time is never reported.  When the first wait has
    returned and the context then reports at most 10000 ms,
    [lambda_handler] ends with the error 'Function was about to timeout':
    no [update_table] request has been sent, and no notification, neither
    SUCCESS nor FAILURE, goes to the callback URL. *)
Theorem lambda_handler_timeout_is_silent (env : Env) (fuel : nat)
    (event : gmap string string) (context : Context) (w w1 : World) :
  table_active_wait env fuel (TABLE_NAME env) 15
    (w ++ [EvLog DEBUG (MsgEvent event); EvLog DEBUG (MsgContext context)])
  = (Ok tt, w1) ->
  get_remaining_time_in_millis env (n_remaining w) <= 10000 ->
  lambda_handler env fuel event context w
  = (Raise timeout_exn,
     w1 ++ [EvLog INFO (MsgCreatingGSI 1 (TABLE_NAME env)); EvRemainingTime])
  /\ exists t,
       w1 ++ [EvLog INFO (MsgCreatingGSI 1 (TABLE_NAME env)); EvRemainingTime] = w ++ t
       /\ update_requests t = []
       /\ urlopen_requests t = [].
Proof.
  intros Hwait Hlate.
  destruct (emits_table_active_wait env _ _ _ _ _ _ Hwait) as (t1 & E1 & F1).
  destruct (poll_events_read_only t1 F1) as (U1 & Q1 & R1).
  assert (N : n_remaining (w1 ++ [EvLog INFO (MsgCreatingGSI 1 (TABLE_NAME env))])
              = n_remaining w).
  { subst w1. unfold n_remaining. rewrite !count_app, R1. simpl. lia. }
  split.
  - unfold lambda_handler.
    rewrite (bind_ok (log _ _) _ w _ tt eq_refl).
    rewrite (bind_ok (log _ _) _ _ _ tt eq_refl).
    rewrite app_cons_assoc.
    rewrite (bind_ok _ _ _ _ _ Hwait).
    rewrite (bind_ok (log _ _) _ _ _ tt eq_refl).
    unfold bind at 1. unfold create_gsi_1, function_retry.
    change (Z.to_nat (5 + 1)) with 6%nat. cbn [wrapper_loop].
    change (0 <=? 5) with true. cbv iota.
    unfold bind at 1. unfold context_get_remaining_time_in_millis.
    rewrite N. apply Z.leb_le in Hlate. rewrite Hlate.
    unfold raise. rewrite <- app_assoc. reflexivity.
  - subst w1.
    exists ([EvLog DEBUG (MsgEvent event); EvLog DEBUG (MsgContext context)] ++ t1
            ++ [EvLog INFO (MsgCreatingGSI 1 (TABLE_NAME env)); EvRemainingTime]).
    rewrite <- !app_assoc. split; [reflexivity|].
    assert (A : forall t2, update_requests (t1 ++ t2) = update_requests t2
                           /\ urlopen_requests (t1 ++ t2) = urlopen_requests t2).
    { intros t2. clear - U1 Q1. induction t1 as [|e t1 IH]; [auto|].
      destruct e; simpl in *; try discriminate; auto. }
    simpl. destruct (A [EvLog INFO (MsgCreatingGSI 1 (TABLE_NAME env)); EvRemainingTime])
      as [-> ->]. split; reflexivity.
Qed.

(** X14. [lambda_handler] never reports FAILURE.  In every run, for every
    environment and event, a request that reaches the callback URL is the
    SUCCESS notification, with the default reason: the FAILURE fallback of
    line 356 only runs when [send_response] cannot build a request from
    the event, and then it cannot build one either. *)
Theorem lambda_handler_never_sends_failure (env : Env) (fuel : nat)
    (event : gmap string string) (context : Context)
    (w : World) (r : outcome unit) (t : list Event) (request : Request) :
  lambda_handler env fuel event context w = (r, w ++ t) ->
  In (EvUrlopen request) t ->
  exists stack request_id logical url,
    event !! "StackId" = Some stack
    /\ event !! "RequestId" = Some request_id
    /\ event !! "LogicalResourceId" = Some logical
    /\ event !! "ResponseURL" = Some url
    /\ request
       = notification_request env context "SUCCESS" (default_reason context)
           stack request_id logical url
    /\ urlopen_requests t = [request].
Proof.
  intros Hrun Hin.
  rewrite lambda_handler_unfold, lambda_handler_then_split in Hrun.
  unfold bind in Hrun.
  destruct (creations env fuel event context w) as [[[]|e|] w5] eqn:E;
    destruct (emits_creations env event context fuel _ _ _ E) as (t5 & -> & F5);
    destruct (creation_events_quiet env t5 F5) as [Q1 _].
  - unfold notification, try_except in Hrun.
    destruct (sendable env event) eqn:S.
    + unfold sendable in S.
      destruct (event !! "StackId") as [stack|] eqn:Hs; [|discriminate].
      destruct (event !! "RequestId") as [request_id|] eqn:Hr; [|discriminate].
      destruct (event !! "LogicalResourceId") as [logical|] eqn:Hl; [|discriminate].
      destruct (event !! "ResponseURL") as [url|] eqn:Hu; [|discriminate].
      rewrite (send_response_sends env context event "SUCCESS" None (w ++ t5)
                 stack request_id logical url Hs Hr Hl Hu S) in Hrun.
      inversion Hrun as [[Hr' Hw]]. rewrite <- app_assoc in Hw.
      apply app_inv_head in Hw. subst t.
      exists stack, request_id, logical, url.
      repeat (split; [reflexivity|]).
      rewrite urlopen_requests_app, Q1.
      apply in_app_or in Hin. destruct Hin as [Hin|Hin].
      { apply in_urlopen_requests in Hin. rewrite Q1 in Hin. contradiction. }
      unfold send_events, send_outcome_event in *.
      destruct (urlopen env (n_urlopen (w ++ t5)) _); simpl in Hin |- *;
        destruct Hin as [F|[F|[F|[F|[F|[]]]]]]; try discriminate;
        inversion F; subst; split; reflexivity.
    + destruct (send_response_unsendable env context event "SUCCESS" None (w ++ t5) S)
        as (e1 & t1 & E1 & _ & U1).
      rewrite E1 in Hrun. unfold bind, log, emit in Hrun. simpl in Hrun.
      destruct (send_response_unsendable env context event "FAILURE" None
                  (((w ++ t5) ++ t1) ++ [EvLog ERROR MsgSuccessSendFailed]) S)
        as (e2 & t2 & E2 & _ & U2).
      rewrite E2 in Hrun. inversion Hrun as [[Hr' Hw]].
      rewrite <- !app_assoc in Hw. apply app_inv_head in Hw. subst t.
      apply in_urlopen_requests in Hin.
      rewrite !urlopen_requests_app, Q1, U1, U2 in Hin. contradiction.
  - inversion Hrun as [[Hr' Hw]]. apply app_inv_head in Hw. subst t.
    apply in_urlopen_requests in Hin. rewrite Q1 in Hin. contradiction.
  - inversion Hrun as [[Hr' Hw]]. apply app_inv_head in Hw. subst t.
    apply in_urlopen_requests in Hin. rewrite Q1 in Hin. contradiction.
Qed.

(** X15. An event that cannot be answered.  When the event lacks one of
    the keys [send_response] reads, or its URL is one the library rejects,
    a run that has got through the creations ends with an exception after
    the error record of line 355: the FAILURE call fails like the SUCCESS
    call, and nothing is sent.  Without ['StackId'] the exception is
    [KeyError('StackId')] and that record is all the step leaves in the
    trace. *)
Theorem lambda_handler_unanswerable_event (env : Env) (fuel : nat)
    (event : gmap string string) (context : Context) (w w5 : World) :
  creations env fuel event context w = (Ok tt, w5) ->
  sendable env event = false ->
  (exists e t,
     lambda_handler env fuel event context w = (Raise e, w5 ++ t)
     /\ In (EvLog ERROR MsgSuccessSendFailed) t
     /\ urlopen_requests t = [])
  /\ (event !! "StackId" = None ->
      lambda_handler env fuel event context w
      = (Raise (KeyError "StackId"), w5 ++ [EvLog ERROR MsgSuccessSendFailed])).
Proof.
  intros Hc S. split.
  - rewrite lambda_handler_unfold, lambda_handler_then_split.
    rewrite (bind_ok _ _ _ _ _ Hc).
    unfold notification, try_except.
    destruct (send_response_unsendable env context event "SUCCESS" None w5 S)
      as (e1 & t1 & E1 & _ & U1).
    rewrite E1. unfold bind, log, emit. simpl.
    destruct (send_response_unsendable env context event "FAILURE" None
                ((w5 ++ t1) ++ [EvLog ERROR MsgSuccessSendFailed]) S)
      as (e2 & t2 & E2 & _ & U2).
    rewrite E2.
    exists e2, (t1 ++ [EvLog ERROR MsgSuccessSendFailed] ++ t2).
    rewrite <- !app_assoc. split; [reflexivity|]. split.
    + apply in_or_app. right. left. reflexivity.
    + rewrite !urlopen_requests_app, U1, U2. reflexivity.
  - intros Hs.
    rewrite lambda_handler_unfold, lambda_handler_then_split.
    rewrite (bind_ok _ _ _ _ _ Hc).
    unfold notification, try_except, send_response, event_get.
    rewrite Hs. reflexivity.
Qed.

(** * The further properties on concrete runs *)

Module MoreRuns.
Import Sample Scenario2.

(** X1 on a run. *)
Lemma check_table_status_reads_status_witness :
  check_table_status Scenario.env_creating table []
  = (Ok false, [EvDescribeTable table; EvLog DEBUG (MsgValue (JStr "CREATING"))]).
Proof.
  exact (proj1 (check_table_status_reads_status Scenario.env_creating table []
                  (table_response "CREATING") (JStr "CREATING") eq_refl eq_refl)).
Defined.

(** X2 on a run: one index of two is still being built. *)
Lemma check_gsi_status_all_active_witness :
  check_gsi_status env_index_building table [] = (Ok false, [EvDescribeTable table]).
Proof.
  exact (proj2 (check_gsi_status_all_active env_index_building table []
                  (indexed_response "ACTIVE" ["ACTIVE"; "CREATING"])
                  [("TableName", JStr "orders");
                   ("TableStatus", JStr "ACTIVE");
                   ("GlobalSecondaryIndexes",
                    JList [JDict [("IndexStatus", JStr "ACTIVE")];
                           JDict [("IndexStatus", JStr "CREATING")]])]
                  eq_refl eq_refl)
           [JDict [("IndexStatus", JStr "ACTIVE")];
            JDict [("IndexStatus", JStr "CREATING")]]
           [JStr "ACTIVE"; JStr "CREATING"] eq_refl eq_refl).
Defined.

(** X3 on a run: an index entry without status hides an index that is
    still being built. *)
Lemma check_gsi_status_fails_open_witness :
  check_gsi_status env_unlabelled table []
  = (Ok true, [EvDescribeTable table; EvLog DEBUG MsgFailedToGetGSIs]).
Proof.
  exact (proj2 (proj2 (check_gsi_status_fails_open env_unlabelled table []
                         unlabelled_response eq_refl))
           [("TableStatus", JStr "ACTIVE");
            ("GlobalSecondaryIndexes",
             JList [JDict [("IndexStatus", JStr "CREATING")];
                    JDict [("IndexName", JStr "by_gsikey")]])]
           [JDict [("IndexStatus", JStr "CREATING")];
            JDict [("IndexName", JStr "by_gsikey")]]
           (KeyError "IndexStatus") eq_refl eq_refl eq_refl).
Defined.

(** X4 on a run: the table does not exist. *)
Lemma describe_table_error_escapes_witness :
  lambda_handler env_no_table 1 event context []
  = (Raise not_found,
     [EvLog DEBUG (MsgEvent event);
      EvLog DEBUG (MsgContext context);
      EvLog DEBUG (MsgTableNotActive table 1);
      EvSleep 1;
      EvDescribeTable table]).
Proof.
  refine (proj2 (proj2 (proj2 (describe_table_error_escapes env_no_table 0 event context
                                 [] not_found eq_refl _)))).
  simpl. vm_compute. discriminate.
Defined.

(** X5 on a run: one more poll for the table, two more for its index. *)
Lemma table_active_wait_converges_witness :
  exists t,
    table_active_wait env_converging 3 table 15 [] = (Ok tt, [] ++ t)
    /\ count is_describe t = 5%nat
    /\ sleeps_of t = [1; 1] ++ [1; 1; 1].
Proof.
  apply (table_active_wait_converges env_converging table 15 1 2 3 []).
  - lia.
  - intros r. apply Runs.root_search_nonneg.
  - intros j w1 Hj Hn.
    unfold check_table_status, client_describe_table, bind. simpl.
    rewrite Hn. destruct j as [|j]; [reflexivity | lia].
  - intros w1 Hn.
    unfold check_table_status, client_describe_table, bind. simpl.
    rewrite Hn. reflexivity.
  - intros j w1 Hj Hn.
    unfold check_gsi_status, client_describe_table, bind. simpl.
    rewrite Hn. destruct j as [|[|j]]; [reflexivity | reflexivity | lia].
  - intros w1 Hn.
    unfold check_gsi_status, client_describe_table, bind. simpl.
    rewrite Hn. reflexivity.
  - lia.
  - lia.
Defined.


(** X7 on a run. *)
Lemma table_active_wait_only_polls_witness :
  let run := table_active_wait env_converging 3 table 15 [] in
  exists t,
    snd run = [] ++ t
    /\ update_requests t = []
    /\ urlopen_requests t = []
    /\ count is_remaining t = O.
Proof.
  intros run.
  apply (table_active_wait_only_polls env_converging 3 table 15 [] (fst run) (snd run)).
  vm_compute. reflexivity.
Defined.

(** X8 on a run: throttled twice, created at the third attempt. *)
Lemma creator_succeeds_after_retries_witness :
  create_gsi_1 env_third_time context 5 30 []
  = (Ok (Some tt),
     failed_attempts 1 "create_gsi_1" (gsi_1_request env_third_time) 5 30
       (fun _ => throttled) 0 0 2
     ++ created_events 1 (gsi_1_request env_third_time))
  /\ sleeps_of
       (failed_attempts 1 "create_gsi_1" (gsi_1_request env_third_time) 5 30
          (fun _ => throttled) 0 0 2
        ++ created_events 1 (gsi_1_request env_third_time))
     = [30; 30].
Proof.
  destruct (creator_succeeds_after_retries env_third_time context 5 30
              (fun _ => throttled) 2 [])
    as (H1 & _ & H3).
  - lia.
  - simpl. lia.
  - intros j. simpl. lia.
  - intros j req Hj. destruct j as [|[|j]]; [reflexivity | reflexivity | lia].
  - intros j Hj. reflexivity.
  - intros req. reflexivity.
  - split; [exact H1|].
    exact (proj1 (H3 1%nat "create_gsi_1" (gsi_1_request env_third_time))).
Defined.

(** X9 on a run: 40 s, then 25 s, then 10 s are left. *)
Lemma creator_times_out_between_retries_witness :
  create_gsi_1 env_running_out context 5 30 []
  = (Raise timeout_exn,
     failed_attempts 1 "create_gsi_1" (gsi_1_request env_running_out) 5 30
       (fun _ => throttled) 0 0 2
     ++ [EvRemainingTime]).
Proof.
  refine (proj1 (creator_times_out_between_retries env_running_out context 5 30
                   (fun _ => throttled) 2 [] _ _ _ _ _ _)).
  - lia.
  - simpl. lia.
  - intros j Hj. destruct j as [|[|j]]; [simpl; lia | simpl; lia | lia].
  - simpl. lia.
  - intros j req Hj. reflexivity.
  - intros j Hj. reflexivity.
Defined.


(** X11 on a run: [wait_seconds = -1]. *)
Lemma creator_negative_wait_witness :
  create_gsi_1 Scenario.env_throttled context 5 (-1) []
  = (Raise negative_sleep,
     [EvRemainingTime;
      EvLog INFO (MsgAddingGSI 1);
      EvUpdateTable (gsi_1_request Scenario.env_throttled);
      EvLog DEBUG (MsgRetrying "create_gsi_1" (-1));
      EvLog DEBUG (MsgRetriesRemaining 5);
      EvLog DEBUG (MsgRetryCause throttled)]).
Proof.
  refine (proj1 (creator_negative_wait Scenario.env_throttled context 5 (-1) []
                   throttled _ _ _ _ _)).
  - lia.
  - lia.
  - simpl. lia.
  - intros req. reflexivity.
  - reflexivity.
Defined.

Lemma env_rerun_waits (w1 : World) :
  exists fuel w2,
    table_active_wait env_rerun fuel (TABLE_NAME env_rerun) 15 w1 = (Ok tt, w2).
Proof. exists 1%nat. eexists. reflexivity. Qed.

(** X12 on a run: both indexes exist already. *)
Lemma lambda_handler_without_retries_witness :
  exists (fuel0 : nat) (wait1 c1 wait2 c2 wait3 : list Event),
    Forall poll_event wait1 /\ Forall poll_event wait2 /\ Forall poll_event wait3
    /\ single_attempt 1 "create_gsi_1" (gsi_1_request env_rerun) c1
    /\ single_attempt 2 "create_gsi_2" (gsi_2_request env_rerun) c2
    /\ let t :=
         [EvLog DEBUG (MsgEvent event); EvLog DEBUG (MsgContext context)]
         ++ wait1
         ++ EvLog INFO (MsgCreatingGSI 1 (TABLE_NAME env_rerun)) :: c1
         ++ wait2
         ++ EvLog INFO (MsgCreatingGSI 2 (TABLE_NAME env_rerun)) :: c2
         ++ wait3 in
       update_requests t = [gsi_1_request env_rerun; gsi_2_request env_rerun]
       /\ forall fuel, (fuel0 <= fuel)%nat ->
            lambda_handler env_rerun fuel event context []
            = (Ok tt,
               ([] ++ t)
               ++ send_events env_rerun ([] ++ t) (Scenario.success_request env_rerun)).
Proof.
  apply (lambda_handler_without_retries env_rerun event context
           Scenario.stack_id "req-0001" "AddGsi" Scenario.callback_url []).
  - intros k. simpl. lia.
  - intros k req. right. exists already_exists. split; reflexivity.
  - exact env_rerun_waits.
  - reflexivity.
  - reflexivity.
  - reflexivity.
  - reflexivity.
  - reflexivity.
Defined.

(** X13 on a run: 9 s are left when the first creation starts. *)
Lemma lambda_handler_timeout_is_silent_witness :
  let w1 :=
    snd (table_active_wait Scenario.env_late 1 (TABLE_NAME Scenario.env_late) 15
           [EvLog DEBUG (MsgEvent event); EvLog DEBUG (MsgContext context)]) in
  lambda_handler Scenario.env_late 1 event context []
  = (Raise timeout_exn,
     w1 ++ [EvLog INFO (MsgCreatingGSI 1 (TABLE_NAME Scenario.env_late));
            EvRemainingTime]).
Proof.
  intros w1.
  refine (proj1 (lambda_handler_timeout_is_silent Scenario.env_late 1 event context
                   [] w1 _ _)).
  - vm_compute. reflexivity.
  - simpl. lia.
Defined.

(** X14 on a run: the one request of a successful run. *)
Lemma lambda_handler_never_sends_failure_witness :
  let run := lambda_handler Scenario.env_ok 1 event context [] in
  exists stack request_id logical url,
    event !! "StackId" = Some stack
    /\ event !! "RequestId" = Some request_id
    /\ event !! "LogicalResourceId" = Some logical
    /\ event !! "ResponseURL" = Some url
    /\ Scenario.success_request Scenario.env_ok
       = notification_request Scenario.env_ok context "SUCCESS" (default_reason context)
           stack request_id logical url
    /\ urlopen_requests (snd run) = [Scenario.success_request Scenario.env_ok].
Proof.
  intros run.
  apply (lambda_handler_never_sends_failure Scenario.env_ok 1 event context []
           (fst run) (snd run) (Scenario.success_request Scenario.env_ok)).
  - vm_compute. reflexivity.
  - vm_compute. repeat first [left; reflexivity | right].
Defined.

(** X15 on a run: the event has no stack identifier. *)
Lemma lambda_handler_unanswerable_event_witness :
  let w5 := snd (creations Scenario.env_ok 1 event_without_stack context []) in
  lambda_handler Scenario.env_ok 1 event_without_stack context []
  = (Raise (KeyError "StackId"), w5 ++ [EvLog ERROR MsgSuccessSendFailed]).
Proof.
  intros w5.
  refine (proj2 (lambda_handler_unanswerable_event Scenario.env_ok 1
                   event_without_stack context [] w5 _ _) _).
  - vm_compute. reflexivity.
  - reflexivity.
  - reflexivity.
Defined.

End MoreRuns.
